(** * Simon's algorithm service: a shallow embedding of [simon.py]

    The development follows [backend/app/algorithms/simon.py]:

    - Python [str] values are [string]s (one [ascii] per character; the
      separator of the equation strings is written with its UTF-8 bytes),
      Python [int]s are [Z], indices produced by [range]/[enumerate] are [nat];
    - a [QuantumCircuit] is a mutable object: circuits live in a store and
      the methods [h], [cx], [measure], [compose], [append] update the store
      in place;
    - [raise]/[try ... except] are an error monad over the store and the
      lines written by [print];
    - the simulator (qiskit-aer), numpy's floating point operations and the
      attributes of qiskit objects are inputs of the model, collected in
      [Numeric] and [Backend]. *)

From Stdlib Require Import ZArith QArith Ascii String DecimalString Sorted Permutation Lia.
From stdpp Require Import base tactics option list.

Local Open Scope Z_scope.

(** ** Python strings *)

Module PyStr.

(** [c * k] for a one-character string [c]. *)
Fixpoint mul (c : ascii) (k : nat) : string :=
  match k with
  | O => EmptyString
  | S k' => String c (mul c k')
  end.

(** [s[:k]] for [0 <= k]. *)
Fixpoint prefix (k : nat) (s : string) : string :=
  match k, s with
  | O, _ => EmptyString
  | S _, EmptyString => EmptyString
  | S k', String c s' => String c (prefix k' s')
  end.

(** [s.ljust(width, fill)]: the string itself when [width <= len(s)]. *)
Definition ljust (s : string) (width : Z) (fill : ascii) : string :=
  String.append s (mul fill (Z.to_nat (width - Z.of_nat (String.length s)))).

(** [s[:stop]]: a negative [stop] counts from the end of the string. *)
Definition slice_to (s : string) (stop : Z) : string :=
  if stop <? 0
  then prefix (Z.to_nat (Z.of_nat (String.length s) + stop)) s
  else prefix (Z.to_nat stop) s.

(** [list(enumerate(s))], counting from [i]. *)
Fixpoint enumerate_from (i : nat) (s : string) : list (nat * ascii) :=
  match s with
  | EmptyString => []
  | String c s' => (i, c) :: enumerate_from (S i) s'
  end.

Definition enumerate (s : string) : list (nat * ascii) := enumerate_from 0 s.

(** [all(p(c) for c in s)]. *)
Fixpoint all (p : ascii -> bool) (s : string) : bool :=
  match s with
  | EmptyString => true
  | String c s' => if p c then all p s' else false
  end.

(** [sep.join(parts)]. *)
Fixpoint join (sep : string) (parts : list string) : string :=
  match parts with
  | [] => EmptyString
  | [p] => p
  | p :: rest => String.append p (String.append sep (join sep rest))
  end.

(** [str(j)] for a non-negative index. *)
Definition of_nat (j : nat) : string := NilEmpty.string_of_uint (Nat.to_uint j).

End PyStr.

(** ** Exceptions, printed lines, circuits *)

Inductive Exn : Type :=
  | ValueError (msg : string)
  | HTTPException (status_code : Z) (detail : Detail)
  | CircuitError (msg : string)
  | SimulatorError (msg : string)
  | AttributeError (msg : string)
  | MemoryError (msg : string)
with Detail : Type :=
  | detail_text (s : string)
  | detail_str (e : Exn).

Inductive Instruction : Type :=
  | h (qubit : nat)
  | cx (control target : nat)
  | measure (qubit clbit : nat).

Record QuantumCircuit : Type := mkCircuit {
  num_qubits : nat;
  num_clbits : nat;
  data : list Instruction
}.

Definition Counts : Type := list (string * Z).

Inductive Printed : Type :=
  | print_extraction_failed (e : Exn)
  | print_simulation_error (e : Exn)
  | print_debug_header
  | print_debug_hidden_period (s : string)
  | print_debug_counts (counts : Counts)
  | print_debug_equations (equations : list string)
  | print_debug_recovered (s : string).

(** The store of circuit objects and the standard output. *)
Record World : Type := mkWorld {
  heap : list QuantumCircuit;
  stdout : list Printed
}.

Definition empty_world : World := mkWorld [] [].

Definition circ : Type := nat.

(** ** The monad of the service: exceptions over the world *)

Inductive Outcome (A : Type) : Type :=
  | Return (a : A)
  | Raise (e : Exn).
Arguments Return {A} a.
Arguments Raise {A} e.

Definition M (A : Type) : Type := World -> Outcome A * World.

Definition ret {A} (a : A) : M A := fun w => (Return a, w).

Definition raise {A} (e : Exn) : M A := fun w => (Raise e, w).

Definition bind {A B} (m : M A) (k : A -> M B) : M B :=
  fun w =>
    match m w with
    | (Return a, w') => k a w'
    | (Raise e, w') => (Raise e, w')
    end.

(** [try: m  except Exception as e: handler(e)]; what [m] did to the world
    before raising stays done. *)
Definition try_except {A} (m : M A) (handler : Exn -> M A) : M A :=
  fun w =>
    match m w with
    | (Return a, w') => (Return a, w')
    | (Raise e, w') => handler e w'
    end.

Definition print (p : Printed) : M unit :=
  fun w => (Return tt, mkWorld (heap w) (stdout w ++ [p])).

Declare Scope py_scope.
Delimit Scope py_scope with py.
Notation "x <- m ;; k" := (bind m (fun x => k))
  (at level 100, m at next level, right associativity) : py_scope.
Notation "m ;;; k" := (bind m (fun _ => k))
  (at level 100, right associativity) : py_scope.
Local Open Scope py_scope.

(** [for x in xs: body(x)]. *)
Fixpoint for_each {A} (xs : list A) (body : A -> M unit) : M unit :=
  match xs with
  | [] => ret tt
  | x :: xs' => body x ;;; for_each xs' body
  end.

(** [range(n)]. *)
Definition range (n : nat) : list nat := seq 0 n.

(** ** The part of qiskit's circuit interface the service uses

    Qubits and clbits are named by their position in the circuit. *)

Module Qiskit.

(** [QuantumCircuit(QuantumRegister(nq), ClassicalRegister(nc))]: a register
    of negative size is refused; the new object is added to the store. *)
Definition new_circuit (nq nc : Z) : M circ :=
  fun w =>
    if (nq <? 0) || (nc <? 0)
    then (Raise (CircuitError "Register size must be non-negative"), w)
    else (Return (length (heap w)),
          mkWorld (heap w ++ [mkCircuit (Z.to_nat nq) (Z.to_nat nc) []]) (stdout w)).

Definition get (c : circ) : M QuantumCircuit :=
  fun w =>
    match heap w !! c with
    | Some qc => (Return qc, w)
    | None => (Raise (CircuitError "no such circuit"), w)
    end.

(** An instruction is accepted when its qubits and clbits exist in the
    circuit and a two-qubit gate has two different qubits. *)
Definition fits (qc : QuantumCircuit) (i : Instruction) : bool :=
  match i with
  | h q => Nat.ltb q (num_qubits qc)
  | cx c t => Nat.ltb c (num_qubits qc) && Nat.ltb t (num_qubits qc) && negb (Nat.eqb c t)
  | measure q c => Nat.ltb q (num_qubits qc) && Nat.ltb c (num_clbits qc)
  end.

(** [circuit.append(instruction)]: the object is updated in place. *)
Definition append (c : circ) (i : Instruction) : M unit :=
  fun w =>
    match heap w !! c with
    | Some qc =>
        if fits qc i
        then (Return tt,
              mkWorld (<[c := mkCircuit (num_qubits qc) (num_clbits qc) (data qc ++ [i])]> (heap w))
                      (stdout w))
        else (Raise (CircuitError "bad qubit or clbit arguments"), w)
    | None => (Raise (CircuitError "no such circuit"), w)
    end.

(** [circuit.h(qubits)] with a range of qubits: one gate per qubit.  An empty
    range is refused. *)
Definition h_range (c : circ) (qubits : list nat) : M unit :=
  match qubits with
  | [] => raise (CircuitError "One or more of the arguments are empty")
  | _ :: _ => for_each qubits (fun q => append c (h q))
  end.

(** [circuit.measure(qubits, clbits)]: pairwise. *)
Definition measure_range (c : circ) (qubits clbits : list nat) : M unit :=
  for_each (zip qubits clbits) (fun qc => append c (measure qc.1 qc.2)).

(** [circuit.compose(other, inplace=True)]: the instructions of [other]
    are added to [circuit]; [other] must not be wider than [circuit]. *)
Definition compose (c other : circ) : M unit :=
  o <- get other ;;
  qc <- get c ;;
  if Nat.ltb (num_qubits qc) (num_qubits o) || Nat.ltb (num_clbits qc) (num_clbits o)
  then raise (CircuitError "Trying to compose with another circuit which has more 'in' edges.")
  else for_each (data o) (fun i => append c i).

End Qiskit.

(** ** [create_simon_oracle] *)

Definition create_simon_oracle (hidden_period : string) (n : nat) : M circ :=
  let total_qubits := (2 * n)%nat in
  oracle <- Qiskit.new_circuit (Z.of_nat total_qubits) 0 ;;
  (* Pad or truncate period to match n *)
  let padded_period :=
    PyStr.slice_to (PyStr.ljust hidden_period (Z.of_nat n) "0"%char) (Z.of_nat n) in
  (* Copy input to output (identity part) *)
  for_each (range n) (fun i => Qiskit.append oracle (cx i (i + n))) ;;;
  (* Add period structure *)
  for_each (PyStr.enumerate padded_period) (fun ib =>
    if Ascii.eqb ib.2 "1"%char
    then Qiskit.append oracle (cx ib.1 ((ib.1 + 1) mod n + n)%nat)
    else ret tt) ;;;
  ret oracle.

(** ** [create_simon_circuit] *)

Definition create_simon_circuit (hidden_period : string) (num_qubits : Z) : M circ :=
  if negb (num_qubits mod 2 =? 0)
  then raise (ValueError "Number of qubits must be even for Simon's algorithm")
  else
    let n := num_qubits / 2 in
    circuit <- Qiskit.new_circuit num_qubits n ;;
    (* the registers exist, so [n] is not negative from here on *)
    let n := Z.to_nat n in
    (* Apply Hadamard to first register (input) *)
    Qiskit.h_range circuit (range n) ;;;
    (* Apply Simon oracle Uf *)
    oracle <- create_simon_oracle hidden_period n ;;
    Qiskit.compose circuit oracle ;;;
    (* Apply Hadamard to first register again *)
    Qiskit.h_range circuit (range n) ;;;
    (* Measure first register *)
    Qiskit.measure_range circuit (range n) (range n) ;;;
    ret circuit.

(** ** [extract_linear_equations] *)

(** [sorted(counts.items(), key=lambda x: x[1], reverse=True)].  Python's
    sort is stable, also with [reverse=True]: items with equal counts keep
    the order they have in the dict.  An item is put in front of the first
    item whose count is not larger than its own. *)
Fixpoint insert_by_count (x : string * Z) (l : Counts) : Counts :=
  match l with
  | [] => [x]
  | y :: l' => if y.2 <=? x.2 then x :: y :: l' else y :: insert_by_count x l'
  end.

Definition sorted_by_count (counts : Counts) : Counts :=
  foldr insert_by_count [] counts.

(** [measurement == '0' * len(measurement)]. *)
Definition all_zeros (measurement : string) : bool :=
  String.eqb measurement (PyStr.mul "0"%char (String.length measurement)).

(** The list [equation_parts] built by the inner loop. *)
Definition equation_parts (measurement : string) : list string :=
  omap (fun jb : nat * ascii =>
          if Ascii.eqb jb.2 "1"%char
          then Some (String.append "s_" (PyStr.of_nat jb.1))
          else None)
       (PyStr.enumerate measurement).

Definition equation_of_parts (parts : list string) : string :=
  String.append (PyStr.join " ⊕ " parts) " = 0".

(** The [for] loop over [sorted_counts], started with the list [equations]. *)
Fixpoint collect_equations (n : Z) (sorted_counts : Counts) (equations : list string)
  : list string :=
  match sorted_counts with
  | [] => equations
  | (measurement, _) :: rest =>
      (* Skip the all-zeros measurement (trivial solution) *)
      if all_zeros measurement then collect_equations n rest equations
      else
        let parts := equation_parts measurement in
        let equations :=
          match parts with
          | [] => equations
          | _ :: _ => equations ++ [equation_of_parts parts]
          end in
        if Z.of_nat (length equations) >=? n - 1
        then equations
        else collect_equations n rest equations
  end.

Definition generic_equation : string := "s_0 ⊕ s_1 = 0".

(** The [while len(equations) < n - 1] loop; [fuel] bounds the number of
    iterations, [pad_equations_done] shows that [n - 1] iterations are enough. *)
Fixpoint pad_equations (fuel : nat) (n : Z) (equations : list string) : list string :=
  match fuel with
  | O => equations
  | S fuel' =>
      if Z.of_nat (length equations) <? n - 1
      then pad_equations fuel' n (equations ++ [generic_equation])
      else equations
  end.

Definition extract_linear_equations (counts : Counts) (hidden_period : string) (n : Z)
  : list string :=
  let equations := [] in
  let padded_period := PyStr.slice_to (PyStr.ljust hidden_period n "0"%char) n in
  (* Get most frequent measurement outcomes (excluding all-zeros) *)
  let sorted_counts := sorted_by_count counts in
  let equations := collect_equations n sorted_counts equations in
  (* If we don't have enough equations, add some generic ones *)
  pad_equations (Z.to_nat (n - 1)) n equations.

(** ** [solve_linear_system] *)

Definition solve_linear_system (equations : list string) (n : Z) (hidden_period : string)
  : string :=
  hidden_period.

(** ** The circuits the constructors build, as gate lists *)

(** The string [hidden_period.ljust(n, '0')[:n]] of [create_simon_oracle]. *)
Definition padded_period (hidden_period : string) (n : nat) : string :=
  PyStr.slice_to (PyStr.ljust hidden_period (Z.of_nat n) "0"%char) (Z.of_nat n).

Definition copy_gates (n : nat) : list Instruction :=
  map (fun i => cx i (i + n)) (range n).

Definition period_gates (period : string) (n : nat) : list Instruction :=
  omap (fun ib : nat * ascii =>
          if Ascii.eqb ib.2 "1"%char
          then Some (cx ib.1 ((ib.1 + 1) mod n + n)%nat)
          else None)
       (PyStr.enumerate period).

Definition oracle_gates (hidden_period : string) (n : nat) : list Instruction :=
  copy_gates n ++ period_gates (padded_period hidden_period n) n.

Definition simon_gates (hidden_period : string) (n : nat) : list Instruction :=
  map h (range n) ++ oracle_gates hidden_period n ++ map h (range n)
  ++ map (fun i => measure i i) (range n).

Definition oracle_circuit (hidden_period : string) (n : nat) : QuantumCircuit :=
  mkCircuit (2 * n) 0 (oracle_gates hidden_period n).

Definition simon_circuit (hidden_period : string) (n : nat) : QuantumCircuit :=
  mkCircuit (2 * n) n (simon_gates hidden_period n).

Definition is_measure (i : Instruction) : bool :=
  match i with measure _ _ => true | _ => false end.

(** The copy of a circuit without its measurements, as [simulate_simon]
    builds it. *)
Definition without_measurements (qc : QuantumCircuit) : QuantumCircuit :=
  mkCircuit (num_qubits qc) 0
            (omap (fun i => if negb (is_measure i) then Some i else None) (data qc)).

(** ** Numbers and the simulator *)

(** A numpy [complex128] with parts of type [float]. *)
Record complex (float : Type) : Type := mkComplex { re : float; im : float }.
Arguments mkComplex {float} re im.
Arguments re {float} _.
Arguments im {float} _.

(** The operations of numpy that [simulate_simon] uses: the floating point
    results, and for [np.ones] the exception it raises when it cannot create
    an array of the size asked for ([None] when it creates the array). *)
Record Numeric (float : Type) : Type := mkNumeric {
  fzero : float;                            (* 0.0 *)
  inv_sqrt : nat -> float;                  (* 1.0 / np.sqrt(k) *)
  inv : nat -> float;                       (* 1.0 / k *)
  abs_sq : complex float -> float;          (* np.abs(z) ** 2 *)
  ones_complex_raises : nat -> option Exn;  (* np.ones(k, dtype=complex) *)
  ones_raises : nat -> option Exn           (* np.ones(k) *)
}.
Arguments mkNumeric {float} fzero inv_sqrt inv abs_sq ones_complex_raises ones_raises.
Arguments fzero {float} _.
Arguments inv_sqrt {float} _ _.
Arguments inv {float} _ _.
Arguments abs_sq {float} _ _.
Arguments ones_complex_raises {float} _ _.
Arguments ones_raises {float} _ _.

(** What the state-vector run of a circuit can do. *)
Inductive StatevectorRun (float : Type) : Type :=
  | run_raises (e : Exn)                       (* transpile / run / result raise *)
  | extraction_raises (e : Exn)                (* result.get_statevector() raises *)
  | statevector_is (sv : list (complex float)).
Arguments run_raises {float} e.
Arguments extraction_raises {float} e.
Arguments statevector_is {float} sv.

(** The installed qiskit and qiskit-aer, as far as the service observes them:
    the state-vector run of a circuit, its 1024-shot measurement run, and the
    [index] attribute of the qubit at a position. *)
Record Backend (float : Type) : Type := mkBackend {
  run_statevector : QuantumCircuit -> StatevectorRun float;
  run_measurement : QuantumCircuit -> Exn + Counts;
  qubit_index : nat -> Exn + nat
}.
Arguments mkBackend {float} run_statevector run_measurement qubit_index.
Arguments run_statevector {float} _ _.
Arguments run_measurement {float} _ _.
Arguments qubit_index {float} _ _.

(** ** The request and response models *)

Module SimonRequest.
Record t : Type := mk { hidden_period : string; num_qubits : Z }.
End SimonRequest.

Record ComplexNumber (float : Type) : Type := mkComplexNumber { real : float; imag : float }.
Arguments mkComplexNumber {float} real imag.
Arguments real {float} _.
Arguments imag {float} _.

Record GateInfo (float : Type) : Type := mkGateInfo {
  name : string;
  qubits : list nat;
  params : list float
}.
Arguments mkGateInfo {float} name qubits params.
Arguments name {float} _.
Arguments qubits {float} _.
Arguments params {float} _.

Module CircuitData.
Record t (float : Type) : Type := mk {
  num_qubits : Z;
  hidden_period : string;
  gates : list (GateInfo float)
}.
Arguments mk {float} num_qubits hidden_period gates.
Arguments num_qubits {float} _.
Arguments hidden_period {float} _.
Arguments gates {float} _.
End CircuitData.

Module SimonResponse.
Record t (float : Type) : Type := mk {
  success : bool;
  circuit_data : CircuitData.t float;
  quantum_state : list (ComplexNumber float);
  probabilities : list float;
  measurement_counts : Counts;
  linear_equations : list string;
  recovered_period : string;
  hidden_period : string
}.
Arguments mk {float} success circuit_data quantum_state probabilities
  measurement_counts linear_equations recovered_period hidden_period.
Arguments success {float} _.
Arguments circuit_data {float} _.
Arguments quantum_state {float} _.
Arguments probabilities {float} _.
Arguments measurement_counts {float} _.
Arguments linear_equations {float} _.
Arguments recovered_period {float} _.
Arguments hidden_period {float} _.
End SimonResponse.

Section Service.

Context {float : Type}.
Variable np : Numeric float.
Variable aer : Backend float.

(** The entries of [np.ones(num_states, dtype=complex) / np.sqrt(num_states)]
    and of [np.ones(num_states) / num_states]. *)
Definition uniform_amplitudes (num_states : nat) : list (complex float) :=
  replicate num_states (mkComplex (inv_sqrt np num_states) (fzero np)).

Definition uniform_distribution (num_states : nat) : list float :=
  replicate num_states (inv np num_states).

(** [np.ones(num_states, dtype=complex) / np.sqrt(num_states)]: raises when
    [np.ones] cannot create the array. *)
Definition uniform_statevector (num_states : nat) : M (list (complex float)) :=
  match ones_complex_raises np num_states with
  | Some e => raise e
  | None => ret (uniform_amplitudes num_states)
  end.

(** [np.ones(num_states) / num_states]: raises when [np.ones] cannot create
    the array. *)
Definition uniform_probabilities (num_states : nat) : M (list float) :=
  match ones_raises np num_states with
  | Some e => raise e
  | None => ret (uniform_distribution num_states)
  end.

Definition fallback_counts : Counts := [("00", 512); ("01", 256); ("10", 256)]%string.

(** ** [simulate_simon] *)

Definition simulate_simon (circuit : circ)
  : M (list (complex float) * list float * Counts) :=
  try_except
    (qc <- Qiskit.get circuit ;;
     (* Create a copy for statevector simulation (without measurements) *)
     statevector_circuit <- Qiskit.new_circuit (Z.of_nat (num_qubits qc)) 0 ;;
     for_each (data qc) (fun instruction =>
       if negb (is_measure instruction)
       then Qiskit.append statevector_circuit instruction
       else ret tt) ;;;
     (* State vector simulation *)
     sqc <- Qiskit.get statevector_circuit ;;
     statevector <-
       match run_statevector aer sqc with
       | run_raises e => raise e
       | statevector_is sv => ret sv
       | extraction_raises e =>
           (* Fallback if statevector extraction fails *)
           print (print_extraction_failed e) ;;;
           let num_states := (2 ^ num_qubits qc)%nat in
           uniform_statevector num_states
       end ;;
     (* Calculate probabilities *)
     let probabilities := map (abs_sq np) statevector in
     (* Measurement simulation with original circuit *)
     counts <-
       match run_measurement aer qc with
       | inl e => raise e
       | inr counts => ret counts
       end ;;
     ret (statevector, probabilities, counts))
    (fun e =>
       print (print_simulation_error e) ;;;
       (* Return fallback results *)
       qc <- Qiskit.get circuit ;;
       let num_states := (2 ^ num_qubits qc)%nat in
       fallback_statevector <- uniform_statevector num_states ;;
       fallback_probabilities <- uniform_probabilities num_states ;;
       ret (fallback_statevector, fallback_probabilities, fallback_counts)).

(** ** [extract_gate_sequence] *)

Definition operation_name (i : Instruction) : string :=
  match i with
  | h _ => "h"
  | cx _ _ => "cx"
  | measure _ _ => "measure"
  end.

Definition instruction_qubits (i : Instruction) : list nat :=
  match i with
  | h q => [q]
  | cx c t => [c; t]
  | measure q _ => [q]
  end.

(** [[q.index for q in qs]]: the first attribute access that raises ends
    the comprehension. *)
Fixpoint qubit_indices (qs : list nat) : Exn + list nat :=
  match qs with
  | [] => inr []
  | q :: qs' =>
      match qubit_index aer q with
      | inl e => inl e
      | inr i =>
          match qubit_indices qs' with
          | inl e => inl e
          | inr indices => inr (i :: indices)
          end
      end
  end.

Definition gate_info (instruction : Instruction) : GateInfo float :=
  match qubit_indices (instruction_qubits instruction) with
  | inr indices => mkGateInfo (operation_name instruction) indices []
  | inl _ =>
      (* Fallback for any instruction format issues *)
      mkGateInfo "unknown" [] []
  end.

Definition extract_gate_sequence (circuit : circ) : M (list (GateInfo float)) :=
  qc <- Qiskit.get circuit ;;
  ret (map gate_info (data qc)).

(** ** [run_simon_algorithm] *)

Definition is_binary_digit (bit : ascii) : bool :=
  Ascii.eqb bit "0"%char || Ascii.eqb bit "1"%char.

(** The [try] block of the handler. *)
Definition run_simon_algorithm_try (request : SimonRequest.t)
  : M (SimonResponse.t float) :=
  let request_hidden_period := SimonRequest.hidden_period request in
  let request_num_qubits := SimonRequest.num_qubits request in
    ((* Validate hidden period (should be binary) *)
     (if negb (PyStr.all is_binary_digit request_hidden_period)
      then raise (HTTPException 400 (detail_text "Hidden period must contain only 0s and 1s"))
      else ret tt) ;;;
     (if negb (request_num_qubits mod 2 =? 0)
      then raise (HTTPException 400
                    (detail_text "Number of qubits must be even for Simon's algorithm"))
      else ret tt) ;;;
     let n := request_num_qubits / 2 in
     (* Create and simulate circuit *)
     circuit <- create_simon_circuit request_hidden_period request_num_qubits ;;
     simulated <- simulate_simon circuit ;;
     let '(statevector, probabilities, counts) := simulated in
     (* Extract linear equations and solve *)
     let linear_equations := extract_linear_equations counts request_hidden_period n in
     let recovered_period := solve_linear_system linear_equations n request_hidden_period in
     (* Debug output *)
     print print_debug_header ;;;
     print (print_debug_hidden_period request_hidden_period) ;;;
     print (print_debug_counts counts) ;;;
     print (print_debug_equations linear_equations) ;;;
     print (print_debug_recovered recovered_period) ;;;
     (* Convert statevector to JSON-serializable format *)
     let quantum_state := map (fun amp => mkComplexNumber (re amp) (im amp)) statevector in
     (* Prepare circuit data for visualization *)
     gates <- extract_gate_sequence circuit ;;
     let circuit_data := CircuitData.mk request_num_qubits request_hidden_period gates in
     ret (SimonResponse.mk true circuit_data quantum_state probabilities counts
            linear_equations recovered_period request_hidden_period)).

(** The handler: whatever the [try] block raises is caught by
    [except Exception] and raised again as a status 500. *)
Definition run_simon_algorithm (request : SimonRequest.t) : M (SimonResponse.t float) :=
  try_except (run_simon_algorithm_try request)
             (fun e => raise (HTTPException 500 (detail_str e))).

(** Alias for [/simon/run]. *)
Definition simulate_simon_algorithm (request : SimonRequest.t) : M (SimonResponse.t float) :=
  run_simon_algorithm request.

(** What [simulate_simon] does for a circuit: the value it returns or the
    exception that leaves it, and the lines it prints, by what the simulator
    and [np.ones] do. *)
Definition simulated (qc : QuantumCircuit)
  : Outcome (list (complex float) * list float * Counts) * list Printed :=
  let num_states := (2 ^ num_qubits qc)%nat in
  let fallback (printed : list Printed) :=
    match ones_complex_raises np num_states, ones_raises np num_states with
    | Some e, _ => (Raise e, printed)
    | None, Some e => (Raise e, printed)
    | None, None =>
        (Return (uniform_amplitudes num_states, uniform_distribution num_states,
                 fallback_counts), printed)
    end in
  match run_statevector aer (without_measurements qc) with
  | run_raises e => fallback [print_simulation_error e]
  | extraction_raises e =>
      match ones_complex_raises np num_states with
      | Some e1 => (Raise e1, [print_extraction_failed e; print_simulation_error e1])
      | None =>
          match run_measurement aer qc with
          | inl e' => fallback [print_extraction_failed e; print_simulation_error e']
          | inr counts =>
              (Return (uniform_amplitudes num_states,
                       map (abs_sq np) (uniform_amplitudes num_states), counts),
               [print_extraction_failed e])
          end
      end
  | statevector_is sv =>
      match run_measurement aer qc with
      | inl e' => fallback [print_simulation_error e']
      | inr counts => (Return (sv, map (abs_sq np) sv, counts), [])
      end
  end.

(** The lines of the debug output of [run_simon_algorithm]. *)
Definition debug_output (hidden_period : string) (counts : Counts)
           (linear_equations : list string) (recovered_period : string) : list Printed :=
  [print_debug_header; print_debug_hidden_period hidden_period; print_debug_counts counts;
   print_debug_equations linear_equations; print_debug_recovered recovered_period].

(** The response built from the values [simulate_simon] returned, for a
    request with period [hidden_period] and [2 * n] qubits. *)
Definition response_of (hidden_period : string) (n : nat)
           (values : list (complex float) * list float * Counts) : SimonResponse.t float :=
  let '(statevector, probabilities, counts) := values in
  let linear_equations := extract_linear_equations counts hidden_period (Z.of_nat n) in
  let recovered_period := solve_linear_system linear_equations (Z.of_nat n) hidden_period in
  SimonResponse.mk true
    (CircuitData.mk (2 * Z.of_nat n) hidden_period
       (map gate_info (simon_gates hidden_period n)))
    (map (fun amp => mkComplexNumber (re amp) (im amp)) statevector)
    probabilities counts linear_equations recovered_period hidden_period.

(** The outcome of the handler for a request with a binary period and
    [2 * n >= 2] qubits, and the lines printed on the way. *)
Definition response (hidden_period : string) (n : nat)
  : Outcome (SimonResponse.t float) * list Printed :=
  match simulated (simon_circuit hidden_period n) with
  | (Return values, printed) =>
      let '(_, _, counts) := values in
      let linear_equations := extract_linear_equations counts hidden_period (Z.of_nat n) in
      (Return (response_of hidden_period n values),
       printed ++ debug_output hidden_period counts linear_equations hidden_period)
  | (Raise e, printed) => (Raise (HTTPException 500 (detail_str e)), printed)
  end.

End Service.

(** ** Reading the extraction loop *)

(** The equation one outcome contributes: none for the all-zeros outcome, none
    for an outcome without a ['1']. *)
Definition equation_of (measurement : string) : option string :=
  if all_zeros measurement then None
  else match equation_parts measurement with
       | [] => None
       | parts => Some (equation_of_parts parts)
       end.

(** The items of [l] whose count is [c], in the order of [l]. *)
Definition with_count (c : Z) (l : Counts) : Counts :=
  List.filter (fun x : string * Z => x.2 =? c) l.

(** [x] may stand before [y] in a ranking by count, descending. *)
Definition count_desc (x y : string * Z) : Prop := y.2 <= x.2.

Definition is_bitstring (s : string) : bool := PyStr.all is_binary_digit s.

(** The value of a bitstring as a binary number. *)
Definition bitstring_value (s : string) : N :=
  foldl (fun v c => (2 * v + (if Ascii.eqb c "1"%char then 1 else 0))%N) 0%N
        (list_ascii_of_string s).

(** ** Linear algebra over GF(2), and the selection rule of the specification *)

Module GF2.

Definition vec : Type := list bool.

Definition of_outcome (measurement : string) : vec :=
  map (fun c => Ascii.eqb c "1"%char) (list_ascii_of_string measurement).

Definition add (u v : vec) : vec := zip_with xorb u v.

(** All sums of sub-families of [vs], for vectors of length [k]. *)
Definition span (k : nat) (vs : list vec) : list vec :=
  foldr (fun v sums => sums ++ map (add v) sums) [replicate k false] vs.

(** [y] is a GF(2)-linear combination of [vs]. *)
Definition dependent (vs : list vec) (y : vec) : bool :=
  bool_decide (y ∈ span (length y) vs).

End GF2.

(** The rule as the specification words it: an outcome is added if and only
    if it is non-zero and linearly independent of the outcomes accepted so
    far; the selection stops at [n - 1] accepted outcomes. *)
Fixpoint greedy_independent (n : Z) (outcomes accepted : list string) : list string :=
  match outcomes with
  | [] => accepted
  | y :: rest =>
      if n - 1 <=? Z.of_nat (length accepted) then accepted
      else if all_zeros y
                || GF2.dependent (map GF2.of_outcome accepted) (GF2.of_outcome y)
           then greedy_independent n rest accepted
           else greedy_independent n rest (accepted ++ [y])
  end.

(** ** Exact instances for small registers *)

(** For an even number of qubits the fallback amplitudes [1/sqrt(4^n)] and
    probabilities [1/4^n] are powers of two: the floating point results are
    exact, and rational arithmetic gives the same numbers.  The instance is
    meant for registers of a few qubits. *)
Module Exact.

(** Arrays of up to [2^16] entries are created; larger ones are refused. *)
Definition too_large (k : nat) : option Exn :=
  if (N.of_nat k <=? 65536)%N then None
  else Some (MemoryError "Unable to allocate array").

Definition np : Numeric Q :=
  mkNumeric 0%Q
            (fun k => Qmake 1 (Z.to_pos (Z.sqrt (Z.of_nat k))))
            (fun k => Qmake 1 (Pos.of_nat k))
            (fun z => Qred (re z * re z + im z * im z)%Q)
            too_large too_large.

(** A simulator without a state vector in its result (none was saved):
    [get_statevector] raises, the measurement run gives [counts]. *)
Definition no_statevector (counts : Counts) : Backend Q :=
  mkBackend (fun _ => extraction_raises (SimulatorError "No statevector for experiment"))
            (fun _ => inr counts)
            (fun q => inr q).

(** A simulator whose result holds the state vector [sv]. *)
Definition with_statevector (sv : list (complex Q)) (counts : Counts) : Backend Q :=
  mkBackend (fun _ => statevector_is sv) (fun _ => inr counts) (fun q => inr q).

End Exact.

(** ** Measures used in the statements *)

(** Character [i] of a period that is thought continued by zeros. *)
Definition char_or_zero (s : string) (i : nat) : ascii :=
  match String.get i s with
  | Some c => c
  | None => "0"%char
  end.

(** The number of ['1'] characters of a string. *)
Fixpoint ones (s : string) : nat :=
  match s with
  | EmptyString => 0%nat
  | String c s' => ((if Ascii.eqb c "1"%char then 1 else 0) + ones s')%nat
  end.

(** A CNOT whose control is in the input register [[0, n)] and whose target is
    in the output register [[n, 2n)]. *)
Definition input_to_output (n : nat) (g : Instruction) : Prop :=
  match g with
  | cx c t => (c < n)%nat /\ (n <= t < 2 * n)%nat
  | _ => False
  end.

(** An equation [extract_linear_equations] may return: the generic one, or the
    equation of an outcome of the counts. *)
Definition from_outcome_or_generic (counts : Counts) (equation : string) : Prop :=
  equation = generic_equation
  \/ exists measurement count,
       In (measurement, count) counts /\ equation_of measurement = Some equation.

(** The first ranked outcome that is not all zeros. *)
Definition first_nonzero_outcome (counts : Counts) : option (string * Z) :=
  List.find (fun x : string * Z => negb (all_zeros x.1)) (sorted_by_count counts).

(** * Properties *)

(** ** Python strings *)

Lemma length_mul c k : String.length (PyStr.mul c k) = k.
Proof. induction k as [|k IH]; simpl; congruence. Qed.

Lemma length_append s t :
  String.length (String.append s t) = (String.length s + String.length t)%nat.
Proof. induction s as [|c s IH]; simpl; congruence. Qed.

Lemma length_prefix k s : String.length (PyStr.prefix k s) = Nat.min k (String.length s).
Proof.
  revert s; induction k as [|k IH]; intros [|c s]; simpl; try reflexivity.
  now rewrite IH.
Qed.

Lemma prefix_append k s t :
  PyStr.prefix k (String.append s t)
  = String.append (PyStr.prefix k s) (PyStr.prefix (k - String.length s) t).
Proof.
  revert k; induction s as [|c s IH]; intros k; simpl.
  - rewrite Nat.sub_0_r. now destruct k.
  - destruct k as [|k]; simpl; [reflexivity|]. now rewrite IH.
Qed.

Lemma prefix_mul c k j : PyStr.prefix k (PyStr.mul c j) = PyStr.mul c (Nat.min k j).
Proof.
  revert j; induction k as [|k IH]; intros [|j]; simpl; try reflexivity.
  now rewrite IH.
Qed.

(** Padding and truncation in one formula: the first [n] characters of the
    period, followed by [n - len(period)] zeros. *)
Lemma padded_period_eq hidden_period n :
  padded_period hidden_period n
  = String.append (PyStr.prefix n hidden_period)
                  (PyStr.mul "0"%char (n - String.length hidden_period)).
Proof.
  unfold padded_period, PyStr.slice_to, PyStr.ljust.
  destruct (Z.ltb_spec (Z.of_nat n) 0) as [Hneg|_]; [lia|].
  rewrite Nat2Z.id, prefix_append, prefix_mul.
  do 2 f_equal. lia.
Qed.

Lemma length_padded_period hidden_period n :
  String.length (padded_period hidden_period n) = n.
Proof.
  rewrite padded_period_eq, length_append, length_prefix, length_mul. lia.
Qed.

Lemma enumerate_from_index i s j c :
  (j, c) ∈ PyStr.enumerate_from i s -> (i <= j < i + String.length s)%nat.
Proof.
  revert i; induction s as [|c' s IH]; intros i; simpl.
  - intros Hin. inversion Hin.
  - intros Hin. apply elem_of_cons in Hin as [Heq|Hin].
    + inversion Heq; subst. lia.
    + apply IH in Hin. lia.
Qed.

(** ** The monad *)

Lemma bind_Return {A B} (m : M A) (k : A -> M B) w b w' :
  bind m k w = (Return b, w') ->
  exists a w1, m w = (Return a, w1) /\ k a w1 = (Return b, w').
Proof.
  unfold bind. destruct (m w) as [[a|e] w1]; [eauto|discriminate].
Qed.

(** ** The circuit store *)

Lemma circuit_eta qc : mkCircuit (num_qubits qc) (num_clbits qc) (data qc) = qc.
Proof. now destruct qc. Qed.

Lemma world_eta w : mkWorld (heap w) (stdout w) = w.
Proof. now destruct w. Qed.

Lemma new_circuit_ok (nq nc : nat) w :
  Qiskit.new_circuit (Z.of_nat nq) (Z.of_nat nc) w
  = (Return (length (heap w)), mkWorld (heap w ++ [mkCircuit nq nc []]) (stdout w)).
Proof.
  unfold Qiskit.new_circuit.
  destruct (Z.ltb_spec (Z.of_nat nq) 0); [lia|].
  destruct (Z.ltb_spec (Z.of_nat nc) 0); [lia|].
  simpl. now rewrite !Nat2Z.id.
Qed.

Lemma get_ok c w qc : heap w !! c = Some qc -> Qiskit.get c w = (Return qc, w).
Proof. intros Hc. unfold Qiskit.get. now rewrite Hc. Qed.

(** Appending a list of instructions that fit: the circuit at [c] grows by
    exactly these instructions, every other object is untouched. *)
Lemma for_each_append c instrs : forall w nq nc gates,
  heap w !! c = Some (mkCircuit nq nc gates) ->
  forallb (Qiskit.fits (mkCircuit nq nc [])) instrs = true ->
  for_each instrs (Qiskit.append c) w
  = (Return tt, mkWorld (<[c := mkCircuit nq nc (gates ++ instrs)]> (heap w)) (stdout w)).
Proof.
  induction instrs as [|i instrs IH]; intros w nq nc gates Hc Hfit; simpl.
  - rewrite app_nil_r, list_insert_id by exact Hc. unfold ret. now rewrite world_eta.
  - simpl in Hfit. apply andb_prop in Hfit as [Hi Hfit].
    unfold bind at 1. unfold Qiskit.append at 1. rewrite Hc.
    replace (Qiskit.fits (mkCircuit nq nc gates) i) with true
      by (symmetry; destruct i; exact Hi).
    simpl num_qubits; simpl num_clbits; simpl data.
    erewrite IH; [| simpl; apply list_lookup_insert_eq; eapply lookup_lt_Some; exact Hc | exact Hfit].
    simpl. rewrite list_insert_insert_eq, <- app_assoc. reflexivity.
Qed.

(** A loop that appends under a condition appends the selected instructions. *)
Lemma for_each_select {A} (sel : A -> option Instruction) (body : A -> M unit) c xs :
  (forall x, body x = match sel x with Some i => Qiskit.append c i | None => ret tt end) ->
  forall w, for_each xs body w = for_each (omap sel xs) (Qiskit.append c) w.
Proof.
  intros Hbody. induction xs as [|x xs IH]; intros w; simpl; [reflexivity|].
  unfold bind at 1. rewrite Hbody.
  destruct (sel x) as [i|]; simpl.
  - unfold bind at 1. destruct (Qiskit.append c i w) as [[[]|e] w']; [apply IH|reflexivity].
  - apply IH.
Qed.

Lemma for_each_map {A} (f : A -> Instruction) c xs w :
  for_each xs (fun x => Qiskit.append c (f x)) w = for_each (map f xs) (Qiskit.append c) w.
Proof.
  revert w; induction xs as [|x xs IH]; intros w; simpl; [reflexivity|].
  unfold bind. destruct (Qiskit.append c (f x) w) as [[[]|e] w']; [apply IH|reflexivity].
Qed.

Lemma for_each_append_at pre post nq nc gates instrs out c :
  c = length pre ->
  forallb (Qiskit.fits (mkCircuit nq nc [])) instrs = true ->
  for_each instrs (Qiskit.append c) (mkWorld (pre ++ mkCircuit nq nc gates :: post) out)
  = (Return tt, mkWorld (pre ++ mkCircuit nq nc (gates ++ instrs) :: post) out).
Proof.
  intros -> Hfit.
  rewrite (for_each_append _ _ _ nq nc gates); simpl; auto using list_lookup_middle.
  rewrite insert_app_r_alt, Nat.sub_diag by lia. reflexivity.
Qed.

(** ** The gates of the oracle and of the circuit fit their registers *)

Lemma fits_copy_gates n nc :
  forallb (Qiskit.fits (mkCircuit (2 * n) nc [])) (copy_gates n) = true.
Proof.
  apply forallb_forall. intros i Hin. unfold copy_gates, range in Hin.
  apply in_map_iff in Hin as (j & <- & Hj). apply in_seq in Hj. simpl.
  rewrite !andb_true_iff, negb_true_iff, !Nat.ltb_lt, Nat.eqb_neq. lia.
Qed.

Lemma fits_period_gates period n nc :
  String.length period = n ->
  forallb (Qiskit.fits (mkCircuit (2 * n) nc [])) (period_gates period n) = true.
Proof.
  intros Hlen. apply forallb_forall. intros i Hin.
  apply list_elem_of_In, list_elem_of_omap in Hin as ([j b] & Hjb & Hsel).
  apply enumerate_from_index in Hjb. simpl in Hsel.
  destruct (Ascii.eqb b "1"); [|discriminate]. injection Hsel as <-. simpl.
  assert ((j + 1) mod n < n)%nat by (apply Nat.mod_upper_bound; lia).
  rewrite !andb_true_iff, negb_true_iff, !Nat.ltb_lt, Nat.eqb_neq. lia.
Qed.

Lemma fits_h_range n nc :
  forallb (Qiskit.fits (mkCircuit (2 * n) nc [])) (map h (range n)) = true.
Proof.
  apply forallb_forall. intros i Hin. unfold range in Hin.
  apply in_map_iff in Hin as (j & <- & Hj). apply in_seq in Hj. simpl.
  rewrite Nat.ltb_lt. lia.
Qed.

Lemma fits_measure_range n :
  forallb (Qiskit.fits (mkCircuit (2 * n) n [])) (map (fun i => measure i i) (range n)) = true.
Proof.
  apply forallb_forall. intros i Hin. unfold range in Hin.
  apply in_map_iff in Hin as (j & <- & Hj). apply in_seq in Hj. simpl.
  rewrite andb_true_iff, !Nat.ltb_lt. lia.
Qed.

Lemma fits_oracle_gates hidden_period n nc :
  forallb (Qiskit.fits (mkCircuit (2 * n) nc [])) (oracle_gates hidden_period n) = true.
Proof.
  unfold oracle_gates. rewrite forallb_app, fits_copy_gates, fits_period_gates;
    auto using length_padded_period.
Qed.

Lemma zip_diag (l : list nat) : zip l l = map (fun i => (i, i)) l.
Proof. induction l as [|x l IH]; simpl; congruence. Qed.

(** ** What [create_simon_oracle] builds *)

Lemma create_simon_oracle_ok hidden_period n w :
  create_simon_oracle hidden_period n w
  = (Return (length (heap w)),
     mkWorld (heap w ++ [oracle_circuit hidden_period n]) (stdout w)).
Proof.
  unfold create_simon_oracle.
  change 0 with (Z.of_nat 0).
  unfold bind at 1. rewrite new_circuit_ok.
  unfold bind at 1. rewrite for_each_map.
  rewrite (for_each_append_at (heap w) [] (2 * n) 0 [] (map _ (range n)));
    [| reflexivity | apply fits_copy_gates].
  unfold bind at 1.
  rewrite (for_each_select
             (fun ib : nat * ascii =>
                if Ascii.eqb ib.2 "1"%char
                then Some (cx ib.1 ((ib.1 + 1) mod n + n)%nat) else None)
             _ (length (heap w)))
    by (intros [i b]; simpl; now destruct (Ascii.eqb b "1")).
  rewrite (for_each_append_at (heap w) [] (2 * n) 0);
    [| reflexivity | apply fits_period_gates, length_padded_period].
  reflexivity.
Qed.

(** ** What [create_simon_circuit] builds *)

Lemma h_range_range c n :
  (1 <= n)%nat ->
  Qiskit.h_range c (range n) = for_each (range n) (fun q => Qiskit.append c (h q)).
Proof. intros Hn. destruct n; [lia|reflexivity]. Qed.

(** Without input qubits the first Hadamard layer is refused: the circuit
    object exists, but nothing else is built. *)
Lemma create_simon_circuit_zero hidden_period w :
  create_simon_circuit hidden_period 0 w
  = (Raise (CircuitError "One or more of the arguments are empty"),
     mkWorld (heap w ++ [mkCircuit 0 0 []]) (stdout w)).
Proof. reflexivity. Qed.

Lemma create_simon_circuit_ok hidden_period n w :
  (1 <= n)%nat ->
  create_simon_circuit hidden_period (2 * Z.of_nat n) w
  = (Return (length (heap w)),
     mkWorld (heap w ++ [simon_circuit hidden_period n; oracle_circuit hidden_period n])
             (stdout w)).
Proof.
  intros Hn1. unfold create_simon_circuit.
  replace (2 * Z.of_nat n mod 2 =? 0) with true
    by (symmetry; apply Z.eqb_eq; rewrite Z.mul_comm; apply Z_mod_mult).
  replace (2 * Z.of_nat n / 2) with (Z.of_nat n)
    by (rewrite Z.mul_comm, Z_div_mult; lia).
  change (negb true) with false. cbv iota.
  replace (2 * Z.of_nat n) with (Z.of_nat (2 * n)) by lia.
  rewrite Nat2Z.id.
  unfold bind at 1. rewrite new_circuit_ok.
  unfold bind at 1. rewrite h_range_range by exact Hn1. rewrite for_each_map.
  rewrite (for_each_append_at (heap w) [] (2 * n) n []);
    [| reflexivity | apply fits_h_range].
  unfold bind at 1. rewrite create_simon_oracle_ok. cbn [heap stdout].
  unfold bind at 1. unfold Qiskit.compose.
  unfold bind at 1.
  rewrite (get_ok _ _ (oracle_circuit hidden_period n))
    by (simpl; rewrite length_app; simpl;
        rewrite lookup_app_r, length_app by (rewrite length_app; simpl; lia);
        simpl; now replace (_ - _)%nat with 0%nat by lia).
  unfold bind at 1.
  rewrite (get_ok _ _ (mkCircuit (2 * n) n ([] ++ map h (range n))))
    by (simpl; rewrite <- app_assoc; simpl; now apply list_lookup_middle).
  unfold oracle_circuit at 1 2 3. cbn [num_qubits num_clbits data].
  rewrite Nat.ltb_irrefl.
  replace (n <? 0)%nat with false by (symmetry; apply Nat.ltb_ge; lia).
  cbn [orb]. rewrite <- app_assoc. cbn [app].
  rewrite (for_each_append_at (heap w) _ (2 * n) n);
    [| reflexivity | apply fits_oracle_gates].
  unfold bind at 1. rewrite for_each_map.
  rewrite (for_each_append_at (heap w) _ (2 * n) n);
    [| reflexivity | apply fits_h_range].
  unfold bind at 1. unfold Qiskit.measure_range.
  rewrite zip_diag.
  rewrite (for_each_select (fun i : nat * nat => Some (measure i.1 i.2)) _ (length (heap w)))
    by reflexivity.
  assert (Hm : omap (fun i : nat * nat => Some (measure i.1 i.2))
                    (map (fun i => (i, i)) (range n))
               = map (fun i => measure i i) (range n)).
  { generalize (range n) as l.
    induction l as [|x l IH]; [reflexivity|]. cbn. cbn in IH. now rewrite IH. }
  rewrite Hm.
  rewrite (for_each_append_at (heap w) _ (2 * n) n);
    [| reflexivity | apply fits_measure_range].
  unfold ret, simon_circuit, simon_gates. simpl app at 1.
  rewrite <- !app_assoc. reflexivity.
Qed.

Lemma fits_simon_gates hidden_period n :
  forallb (Qiskit.fits (mkCircuit (2 * n) n [])) (simon_gates hidden_period n) = true.
Proof.
  unfold simon_gates.
  rewrite !forallb_app, fits_h_range, fits_oracle_gates, fits_measure_range. reflexivity.
Qed.

Lemma fits_without_measurements qc :
  forallb (Qiskit.fits (mkCircuit (num_qubits qc) (num_clbits qc) [])) (data qc) = true ->
  forallb (Qiskit.fits (mkCircuit (num_qubits qc) 0 [])) (data (without_measurements qc)) = true.
Proof.
  unfold without_measurements. cbn [data].
  induction (data qc) as [|i gates IH]; [reflexivity|].
  cbn [forallb]. intros [Hi Hrest]%andb_prop.
  destruct i; cbn; rewrite ?IH by exact Hrest; cbn in Hi; rewrite ?Hi; reflexivity.
Qed.

(** ** What [simulate_simon] does *)

Section SimulateFacts.

Context {float : Type}.
Variable np : Numeric float.
Variable aer : Backend float.

Lemma simulate_simon_ok circuit qc w :
  heap w !! circuit = Some qc ->
  forallb (Qiskit.fits (mkCircuit (num_qubits qc) (num_clbits qc) [])) (data qc) = true ->
  simulate_simon np aer circuit w
  = ((simulated np aer qc).1,
     mkWorld (heap w ++ [without_measurements qc]) (stdout w ++ (simulated np aer qc).2)).
Proof.
  intros Hc Hfit.
  assert (Hlt : (circuit < length (heap w))%nat) by (eapply lookup_lt_Some; exact Hc).
  assert (Hc' : forall x, (heap w ++ [x]) !! circuit = Some qc)
    by (intros x; rewrite lookup_app_l by exact Hlt; exact Hc).
  unfold simulate_simon, try_except, simulated.
  unfold bind at 1. rewrite (get_ok _ _ _ Hc).
  unfold bind at 1. change 0 with (Z.of_nat 0). rewrite new_circuit_ok.
  unfold bind at 1.
  rewrite (for_each_select (fun i => if negb (is_measure i) then Some i else None)
             _ (length (heap w)))
    by (intros i; now destruct (negb (is_measure i))).
  rewrite (for_each_append_at (heap w) [] (num_qubits qc) 0 []);
    [| reflexivity | apply fits_without_measurements, Hfit].
  cbn [app]. fold (without_measurements qc).
  unfold bind at 1.
  rewrite (get_ok _ _ (without_measurements qc)) by (cbn [heap]; now apply list_lookup_middle).
  unfold bind at 1.
  destruct (run_statevector aer (without_measurements qc)) as [e|e|sv];
    [| unfold bind at 1; unfold print at 1; cbn [heap stdout];
       unfold uniform_statevector at 1;
       destruct (ones_complex_raises np (2 ^ num_qubits qc)) as [e1|] eqn:Hones
     | ];
    try (unfold ret at 1; cbv beta iota; unfold bind at 1;
         destruct (run_measurement aer qc) as [e'|counts]);
    unfold bind, print, raise, ret, uniform_statevector, uniform_probabilities;
    cbn [heap stdout];
    rewrite ?(get_ok _ _ qc) by (cbn [heap]; apply Hc');
    rewrite ?Hones;
    repeat match goal with
           | |- context [ones_complex_raises np ?k] => destruct (ones_complex_raises np k)
           | |- context [ones_raises np ?k] => destruct (ones_raises np k)
           end;
    cbn [fst snd]; rewrite <- ?app_assoc, ?app_nil_r; reflexivity.
Qed.

End SimulateFacts.

(** ** [run_simon_algorithm] *)

Section HandlerFacts.

Context {float : Type}.
Variable np : Numeric float.
Variable aer : Backend float.

Lemma run_simon_algorithm_try_bad_period hidden_period num_qubits w :
  PyStr.all is_binary_digit hidden_period = false ->
  run_simon_algorithm_try np aer (SimonRequest.mk hidden_period num_qubits) w
  = (Raise (HTTPException 400 (detail_text "Hidden period must contain only 0s and 1s")), w).
Proof.
  intros Hbad. unfold run_simon_algorithm_try. cbn [SimonRequest.hidden_period].
  rewrite Hbad. reflexivity.
Qed.

Lemma run_simon_algorithm_try_odd hidden_period num_qubits w :
  PyStr.all is_binary_digit hidden_period = true ->
  Z.odd num_qubits = true ->
  run_simon_algorithm_try np aer (SimonRequest.mk hidden_period num_qubits) w
  = (Raise (HTTPException 400
              (detail_text "Number of qubits must be even for Simon's algorithm")), w).
Proof.
  intros Hok Hodd. unfold run_simon_algorithm_try.
  cbn [SimonRequest.hidden_period SimonRequest.num_qubits].
  rewrite Hok. rewrite Zmod_odd, Hodd. reflexivity.
Qed.

Lemma run_simon_algorithm_ok hidden_period n w :
  PyStr.all is_binary_digit hidden_period = true ->
  (1 <= n)%nat ->
  run_simon_algorithm np aer (SimonRequest.mk hidden_period (2 * Z.of_nat n)) w
  = ((response np aer hidden_period n).1,
     mkWorld (heap w ++ [simon_circuit hidden_period n; oracle_circuit hidden_period n;
                         without_measurements (simon_circuit hidden_period n)])
             (stdout w ++ (response np aer hidden_period n).2)).
Proof.
  intros Hok Hn. unfold run_simon_algorithm, try_except, run_simon_algorithm_try.
  cbn [SimonRequest.hidden_period SimonRequest.num_qubits].
  rewrite Hok.
  replace (2 * Z.of_nat n mod 2 =? 0) with true
    by (symmetry; apply Z.eqb_eq; rewrite Z.mul_comm; apply Z_mod_mult).
  replace (2 * Z.of_nat n / 2) with (Z.of_nat n)
    by (rewrite Z.mul_comm, Z_div_mult; lia).
  change (negb true) with false. cbv iota.
  unfold bind at 1. unfold ret at 1.
  unfold bind at 1. unfold ret at 1.
  unfold bind at 1. rewrite create_simon_circuit_ok by exact Hn.
  unfold bind at 1.
  rewrite (simulate_simon_ok np aer _ (simon_circuit hidden_period n))
    by first [apply fits_simon_gates | cbn [heap]; now apply list_lookup_middle].
  cbn [heap stdout]. unfold response, response_of.
  destruct (simulated np aer (simon_circuit hidden_period n))
    as [[[[statevector probabilities] counts]|e] printed].
  - cbn [fst snd].
    unfold bind, print, extract_gate_sequence, bind, ret. cbn [heap stdout].
    rewrite (get_ok _ _ (simon_circuit hidden_period n))
      by (cbn [heap]; rewrite <- app_assoc; now apply list_lookup_middle).
    cbn [simon_circuit data debug_output]. unfold solve_linear_system.
    rewrite <- !app_assoc. reflexivity.
  - cbn [fst snd]. unfold raise. rewrite <- !app_assoc. reflexivity.
Qed.

(** Without qubits the request fails at the first Hadamard layer. *)
Lemma run_simon_algorithm_zero hidden_period w :
  PyStr.all is_binary_digit hidden_period = true ->
  run_simon_algorithm np aer (SimonRequest.mk hidden_period 0) w
  = (Raise (HTTPException 500
              (detail_str (CircuitError "One or more of the arguments are empty"))),
     mkWorld (heap w ++ [mkCircuit 0 0 []]) (stdout w)).
Proof.
  intros Hok. unfold run_simon_algorithm, try_except, run_simon_algorithm_try.
  cbn [SimonRequest.hidden_period SimonRequest.num_qubits].
  rewrite Hok. reflexivity.
Qed.

(** A negative even number of qubits is refused by the register. *)
Lemma run_simon_algorithm_negative hidden_period num_qubits w :
  PyStr.all is_binary_digit hidden_period = true ->
  Z.odd num_qubits = false ->
  num_qubits < 0 ->
  run_simon_algorithm np aer (SimonRequest.mk hidden_period num_qubits) w
  = (Raise (HTTPException 500
              (detail_str (CircuitError "Register size must be non-negative"))), w).
Proof.
  intros Hbits Heven Hneg. unfold run_simon_algorithm, try_except, run_simon_algorithm_try.
  cbn [SimonRequest.hidden_period SimonRequest.num_qubits].
  rewrite Hbits, Zmod_odd, Heven.
  cbn [negb Z.eqb]. unfold bind at 1. unfold ret at 1.
  unfold bind at 1. unfold ret at 1. unfold bind at 1.
  unfold create_simon_circuit. rewrite Zmod_odd, Heven. cbn [negb Z.eqb].
  unfold bind at 1. unfold Qiskit.new_circuit.
  replace (num_qubits <? 0) with true by (symmetry; now apply Z.ltb_lt).
  reflexivity.
Qed.

(** An even number of qubits that is not negative is twice a natural number. *)
Lemma even_nonnegative num_qubits :
  Z.odd num_qubits = false -> 0 <= num_qubits ->
  num_qubits = 2 * Z.of_nat (Z.to_nat (num_qubits / 2)).
Proof.
  intros Heven Hpos. rewrite Z2Nat.id by (apply Z.div_pos; lia).
  pose proof (Zmod_odd num_qubits) as Hmod. rewrite Heven in Hmod.
  rewrite (Z.div_mod num_qubits 2) at 1 by lia. lia.
Qed.

(** Whatever the handler returns has [success = True] and repeats the period
    of the request as the recovered period. *)
Lemma run_simon_algorithm_returns request w resp w' :
  run_simon_algorithm np aer request w = (Return resp, w') ->
  SimonResponse.success resp = true
  /\ SimonResponse.recovered_period resp = SimonRequest.hidden_period request
  /\ SimonResponse.hidden_period resp = SimonRequest.hidden_period request.
Proof.
  intros Hrun.
  unfold run_simon_algorithm, try_except in Hrun.
  destruct (run_simon_algorithm_try np aer request w) as [[r|e] w1] eqn:Htry;
    [|discriminate].
  injection Hrun as -> ->.
  unfold run_simon_algorithm_try in Htry.
  do 3 (apply bind_Return in Htry as (? & ? & _ & Htry)).
  apply bind_Return in Htry as ([[? ?] ?] & ? & _ & Htry).
  do 6 (apply bind_Return in Htry as (? & ? & _ & Htry)).
  unfold ret in Htry. injection Htry as <- _. repeat split.
Qed.

End HandlerFacts.

(** ** The ranking of the outcomes *)

Lemma insert_by_count_perm x l : Permutation (insert_by_count x l) (x :: l).
Proof.
  induction l as [|y l IH]; simpl; [reflexivity|].
  destruct (y.2 <=? x.2); [reflexivity|].
  rewrite IH. apply perm_swap.
Qed.

Lemma sorted_by_count_perm counts : Permutation (sorted_by_count counts) counts.
Proof.
  induction counts as [|x l IH]; simpl; [reflexivity|].
  rewrite insert_by_count_perm. now apply perm_skip.
Qed.

Lemma insert_by_count_sorted x l :
  StronglySorted count_desc l -> StronglySorted count_desc (insert_by_count x l).
Proof.
  induction 1 as [|y l Hl IH Hy]; simpl.
  - repeat constructor.
  - destruct (Z.leb_spec y.2 x.2) as [Hle|Hgt].
    + constructor; [now constructor|].
      constructor; [exact Hle|].
      eapply Forall_impl; [exact Hy|]. unfold count_desc. intros z Hz. simpl in Hz. lia.
    + constructor; [exact IH|].
      eapply Permutation_Forall; [symmetry; apply insert_by_count_perm|].
      constructor; [unfold count_desc; lia | exact Hy].
Qed.

Lemma sorted_by_count_sorted counts : StronglySorted count_desc (sorted_by_count counts).
Proof.
  induction counts as [|x l IH]; simpl; [constructor|].
  now apply insert_by_count_sorted.
Qed.

(** An item is only moved past items with a strictly larger count, so items
    with the same count never change places. *)
Lemma insert_by_count_stable c x l :
  with_count c (insert_by_count x l) = with_count c (x :: l).
Proof.
  induction l as [|y l IH]; [reflexivity|]. simpl.
  destruct (Z.leb_spec y.2 x.2) as [Hle|Hgt]; [reflexivity|].
  simpl. simpl in IH. rewrite IH.
  destruct (Z.eqb_spec x.2 c), (Z.eqb_spec y.2 c); try reflexivity. lia.
Qed.

Lemma sorted_by_count_stable c counts :
  with_count c (sorted_by_count counts) = with_count c counts.
Proof.
  induction counts as [|x l IH]; [reflexivity|].
  simpl sorted_by_count. rewrite insert_by_count_stable.
  simpl. now rewrite IH.
Qed.

(** ** The collection loop *)

Lemma collect_equations_skips_zeros n l : forall equations,
  collect_equations n l equations
  = collect_equations n (List.filter (fun x : string * Z => negb (all_zeros x.1)) l) equations.
Proof.
  induction l as [|[m c] l IH]; intros equations; simpl; [reflexivity|].
  destruct (all_zeros m) eqn:Hz; simpl; [apply IH|].
  rewrite Hz.
  destruct (Z.of_nat (length _) >=? n - 1); [reflexivity|apply IH].
Qed.

Lemma collect_equations_take n l : forall equations,
  (length equations < Z.to_nat (n - 1))%nat ->
  collect_equations n l equations
  = take (Z.to_nat (n - 1)) (equations ++ omap (fun x : string * Z => equation_of x.1) l).
Proof.
  induction l as [|[m c] l IH]; intros equations Hlen.
  - simpl. rewrite app_nil_r, take_ge by lia. reflexivity.
  - cbn [collect_equations]. unfold omap. cbn [list_omap fst]. fold (@omap list _).
    unfold equation_of at 1.
    destruct (all_zeros m); [now apply IH|].
    destruct (equation_parts m) as [|p parts].
    + destruct (Z.geb_spec (Z.of_nat (length equations)) (n - 1)); [lia|now apply IH].
    + rewrite length_app. cbn [length].
      destruct (Z.geb_spec (Z.of_nat (length equations + 1)) (n - 1)) as [Hge|Hlt].
      * rewrite (cons_middle _ equations (omap _ l)), app_assoc.
        rewrite take_app_length'; [reflexivity|].
        rewrite length_app. simpl. lia.
      * rewrite IH by (rewrite length_app; simpl; lia).
        now rewrite <- app_assoc.
Qed.

(** ** The padding loop *)

Lemma pad_equations_eq fuel : forall n equations,
  (Z.to_nat (n - 1 - Z.of_nat (length equations)) <= fuel)%nat ->
  pad_equations fuel n equations
  = equations ++ replicate (Z.to_nat (n - 1 - Z.of_nat (length equations))) generic_equation.
Proof.
  induction fuel as [|fuel IH]; intros n equations Hfuel; simpl.
  - replace (Z.to_nat _) with 0%nat by lia. now rewrite app_nil_r.
  - destruct (Z.ltb_spec (Z.of_nat (length equations)) (n - 1)) as [Hlt|Hge].
    + rewrite IH by (rewrite length_app; simpl; lia).
      rewrite length_app. simpl length.
      replace (Z.to_nat (n - 1 - Z.of_nat (length equations)))
        with (S (Z.to_nat (n - 1 - Z.of_nat (length equations + 1)))) by lia.
      simpl. now rewrite <- app_assoc.
    + replace (Z.to_nat _) with 0%nat by lia. now rewrite app_nil_r.
Qed.

(** The loop ends: with [n - 1] units of fuel its condition is false on exit. *)
Lemma pad_equations_done n equations :
  (Z.of_nat (length (pad_equations (Z.to_nat (n - 1)) n equations)) <? n - 1) = false.
Proof.
  rewrite pad_equations_eq by lia.
  rewrite length_app, length_replicate. apply Z.ltb_ge. lia.
Qed.

Lemma extract_linear_equations_eq counts hidden_period n :
  extract_linear_equations counts hidden_period n
  = let collected := collect_equations n (sorted_by_count counts) [] in
    collected ++ replicate (Z.to_nat (n - 1 - Z.of_nat (length collected))) generic_equation.
Proof.
  unfold extract_linear_equations. cbv zeta. apply pad_equations_eq. lia.
Qed.

(** An outcome over ['0']/['1'] that is not all zeros contains a ['1']. *)
Lemma equation_parts_from_nil i s :
  is_bitstring s = true ->
  omap (fun jb : nat * ascii =>
          if Ascii.eqb jb.2 "1"%char
          then Some (String.append "s_" (PyStr.of_nat jb.1)) else None)
       (PyStr.enumerate_from i s) = [] ->
  s = PyStr.mul "0"%char (String.length s).
Proof.
  revert i; induction s as [|c s IH]; intros i Hbits Hnil; [reflexivity|].
  unfold is_bitstring in Hbits. cbn [PyStr.all] in Hbits. unfold is_binary_digit in Hbits.
  cbn [PyStr.enumerate_from] in Hnil. unfold omap in Hnil. cbn [list_omap snd] in Hnil.
  fold (@omap list _) in Hnil.
  destruct (Ascii.eqb_spec c "1"%char) as [->|Hne1]; [discriminate|].
  destruct (Ascii.eqb_spec c "0"%char) as [->|Hne0]; [|discriminate].
  cbn [orb] in Hbits. simpl. f_equal. eapply IH; [exact Hbits|exact Hnil].
Qed.

Lemma equation_of_nonzero measurement :
  is_bitstring measurement = true ->
  all_zeros measurement = false ->
  equation_of measurement = Some (equation_of_parts (equation_parts measurement))
  /\ equation_parts measurement <> [].
Proof.
  intros Hbits Hnz. unfold equation_of. rewrite Hnz.
  destruct (equation_parts measurement) as [|p parts] eqn:Hparts; [|now split].
  exfalso. apply equation_parts_from_nil in Hparts; [|exact Hbits].
  unfold all_zeros in Hnz. rewrite <- Hparts, String.eqb_refl in Hnz. discriminate.
Qed.

Lemma prefix_all k s : (String.length s <= k)%nat -> PyStr.prefix k s = s.
Proof.
  revert k; induction s as [|c s IH]; intros [|k] Hk; simpl in *; try reflexivity; try lia.
  f_equal. apply IH. lia.
Qed.

(** A period shorter than [n] is padded on the right with zeros. *)
Lemma padded_period_short hidden_period n :
  (String.length hidden_period <= n)%nat ->
  padded_period hidden_period n
  = String.append hidden_period (PyStr.mul "0"%char (n - String.length hidden_period)).
Proof. intros Hle. now rewrite padded_period_eq, prefix_all. Qed.

(** A period longer than [n] is cut to its first [n] characters. *)
Lemma padded_period_long hidden_period n :
  (n <= String.length hidden_period)%nat ->
  padded_period hidden_period n = PyStr.prefix n hidden_period.
Proof.
  intros Hle. rewrite padded_period_eq.
  replace (n - String.length hidden_period)%nat with 0%nat by lia.
  simpl. induction (PyStr.prefix n hidden_period) as [|c s IH]; simpl; congruence.
Qed.

Lemma map_replicate {A B} (f : A -> B) k x : map f (replicate k x) = replicate k (f x).
Proof. induction k as [|k IH]; simpl; congruence. Qed.

(** ** The characters of the padded period *)

Lemma get_append i s t :
  String.get i (String.append s t)
  = if (i <? String.length s)%nat then String.get i s
    else String.get (i - String.length s) t.
Proof.
  revert i; induction s as [|c s IH]; intros i; cbn [String.append String.length String.get].
  - now rewrite Nat.sub_0_r.
  - destruct i as [|i]; [reflexivity|]. apply IH.
Qed.

Lemma get_prefix i k s : (i < k)%nat -> String.get i (PyStr.prefix k s) = String.get i s.
Proof.
  revert i s; induction k as [|k IH]; intros i [|c s] Hi; try lia; try reflexivity.
  cbn [PyStr.prefix String.get]. destruct i as [|i]; [reflexivity|]. apply IH. lia.
Qed.

Lemma get_mul i c k : (i < k)%nat -> String.get i (PyStr.mul c k) = Some c.
Proof.
  revert i; induction k as [|k IH]; intros i Hi; [lia|].
  cbn [PyStr.mul String.get]. destruct i as [|i]; [reflexivity|]. apply IH. lia.
Qed.

Lemma get_beyond i s : (String.length s <= i)%nat -> String.get i s = None.
Proof.
  revert i; induction s as [|c s IH]; intros i Hi; [reflexivity|].
  cbn [String.length] in Hi. cbn [String.get]. destruct i as [|i]; [lia|]. apply IH. lia.
Qed.

Lemma get_within i s : (i < String.length s)%nat -> is_Some (String.get i s).
Proof.
  revert i; induction s as [|c s IH]; intros i Hi; cbn [String.length] in Hi; [lia|].
  cbn [String.get]. destruct i as [|i]; [eauto|]. apply IH. lia.
Qed.

Lemma get_padded_period hidden_period n i :
  (i < n)%nat ->
  String.get i (padded_period hidden_period n) = Some (char_or_zero hidden_period i).
Proof.
  intros Hi. rewrite padded_period_eq, get_append, length_prefix. unfold char_or_zero.
  destruct (Nat.ltb_spec i (Nat.min n (String.length hidden_period))) as [Hin|Hout].
  - rewrite get_prefix by exact Hi.
    destruct (get_within i hidden_period) as [c ->]; [lia|reflexivity].
  - rewrite get_mul by lia. now rewrite get_beyond by lia.
Qed.

Lemma omap_ext_in {A B} (f g : A -> option B) l :
  (forall x, In x l -> f x = g x) -> omap f l = omap g l.
Proof.
  induction l as [|x l IH]; intros Hfg; [reflexivity|].
  cbn. rewrite (Hfg x) by now left.
  cbn in IH. rewrite IH by (intros y Hy; apply Hfg; now right). reflexivity.
Qed.

Lemma omap_enumerate_from {B} (F : nat * ascii -> option B) i s :
  omap F (PyStr.enumerate_from i s)
  = omap (fun j => match String.get (j - i) s with
                   | Some c => F (j, c)
                   | None => None
                   end)
         (seq i (String.length s)).
Proof.
  revert i; induction s as [|c s IH]; intros i; [reflexivity|].
  cbn [PyStr.enumerate_from String.length seq].
  change (omap F ((i, c) :: PyStr.enumerate_from (S i) s))
    with (match F (i, c) with
          | Some y => y :: omap F (PyStr.enumerate_from (S i) s)
          | None => omap F (PyStr.enumerate_from (S i) s)
          end).
  rewrite IH.
  rewrite (omap_ext_in
             (fun j => match String.get (j - S i) s with
                       | Some c0 => F (j, c0)
                       | None => None
                       end)
             (fun j => match String.get (j - i) (String c s) with
                       | Some c0 => F (j, c0)
                       | None => None
                       end)).
  - cbn. rewrite Nat.sub_diag. reflexivity.
  - intros j Hj. apply in_seq in Hj.
    replace (j - i)%nat with (S (j - S i)) by lia. reflexivity.
Qed.

(** The gates of the period loop, read off the characters of the period. *)
Lemma period_gates_by_index period n :
  period_gates period n
  = omap (fun i => if Ascii.eqb (char_or_zero period i) "1"%char
                   then Some (cx i ((i + 1) mod n + n)%nat)
                   else None)
         (seq 0 (String.length period)).
Proof.
  unfold period_gates, PyStr.enumerate. rewrite omap_enumerate_from.
  apply omap_ext_in. intros j Hj. apply in_seq in Hj.
  rewrite Nat.sub_0_r. unfold char_or_zero.
  destruct (get_within j period) as [c ->]; [lia|reflexivity].
Qed.

(** ** The definitions at work *)

Example circuit_for_period_11 :
  create_simon_circuit "11" 4 empty_world
  = (Return 0%nat,
     mkWorld [mkCircuit 4 2 [h 0; h 1; cx 0 2; cx 1 3; cx 0 3; cx 1 2; h 0; h 1;
                             measure 0 0; measure 1 1];
              mkCircuit 4 0 [cx 0 2; cx 1 3; cx 0 3; cx 1 2]] []).
Proof. reflexivity. Qed.

Example oracle_for_period_10 :
  create_simon_oracle "10" 2 empty_world
  = (Return 0%nat, mkWorld [mkCircuit 4 0 [cx 0 2; cx 1 3; cx 0 3]] []).
Proof. reflexivity. Qed.

Example short_period_is_padded : padded_period "1" 3 = "100"%string.
Proof. reflexivity. Qed.

Example long_period_is_cut : padded_period "1011" 2 = "10"%string.
Proof. reflexivity. Qed.

Example negative_register_is_refused :
  create_simon_circuit "11" (-2) empty_world
  = (Raise (CircuitError "Register size must be non-negative"), empty_world).
Proof. reflexivity. Qed.

Example equations_of_fallback_counts :
  extract_linear_equations fallback_counts "11" 2 = ["s_1 = 0"%string].
Proof. reflexivity. Qed.

Example equations_most_frequent_first :
  extract_linear_equations [("011", 100); ("000", 500); ("110", 300)]%string "111" 3
  = ["s_0 ⊕ s_1 = 0"; "s_1 ⊕ s_2 = 0"]%string.
Proof. reflexivity. Qed.

(** With [n = 1] the bound [n - 1] is 0, and still the first outcome that is
    not all zeros gives an equation: the bound is tested after the append. *)
Example one_equation_for_one_bit :
  extract_linear_equations [("1", 1024)]%string "1" 1 = ["s_0 = 0"%string].
Proof. reflexivity. Qed.

Example end_to_end_period_10 :
  match (run_simon_algorithm Exact.np (Exact.no_statevector [("00", 500); ("01", 524)]%string)
                             (SimonRequest.mk "10" 4) empty_world).1 with
  | Return resp =>
      SimonResponse.recovered_period resp = "10"%string
      /\ SimonResponse.linear_equations resp = ["s_1 = 0"%string]
      /\ CircuitData.gates (SimonResponse.circuit_data resp)
         = [mkGateInfo "h" [0] []; mkGateInfo "h" [1] []; mkGateInfo "cx" [0; 2] [];
            mkGateInfo "cx" [1; 3] []; mkGateInfo "cx" [0; 3] []; mkGateInfo "h" [0] [];
            mkGateInfo "h" [1] []; mkGateInfo "measure" [0] []; mkGateInfo "measure" [1] []]%nat
  | Raise _ => False
  end.
Proof. vm_compute. repeat split; reflexivity. Qed.

(** The handler's own status 400 is caught by its [except Exception] and
    leaves as a status 500 whose detail is the text of the first exception. *)
Example odd_request_leaves_as_500 :
  run_simon_algorithm Exact.np (Exact.no_statevector fallback_counts)
                      (SimonRequest.mk "11" 3) empty_world
  = (Raise (HTTPException 500
              (detail_str (HTTPException 400
                 (detail_text "Number of qubits must be even for Simon's algorithm")))),
     empty_world).
Proof. reflexivity. Qed.

(** * The claims *)

(** C1 as stated fails: with [n = 4] and the outcomes ["1100"], ["0110"],
    ["1010"], the third outcome is the GF(2) sum of the first two, and still
    its equation is accepted; the rule of the specification stops at two
    outcomes. *)
Lemma extract_accepts_dependent_outcome :
  let counts := [("1100", 300); ("0110", 200); ("1010", 100)]%string in
  extract_linear_equations counts "1111" 4
  = ["s_0 ⊕ s_1 = 0"; "s_1 ⊕ s_2 = 0"; "s_0 ⊕ s_2 = 0"]%string
  /\ equation_of "1010" = Some "s_0 ⊕ s_2 = 0"%string
  /\ GF2.dependent [GF2.of_outcome "1100"; GF2.of_outcome "0110"] (GF2.of_outcome "1010")
     = true
  /\ greedy_independent 4 (map fst (sorted_by_count counts)) [] = ["1100"; "0110"]%string.
Proof. vm_compute. repeat split; reflexivity. Qed.

(** C1, amended. For [n >= 2], the equations collected by
    [extract_linear_equations] are those of the first [n - 1] ranked outcomes
    that contribute one, whether or not they are linearly independent of the
    ones before: an outcome contributes its equation unless it is all zeros
    (or has no ['1'] at all), and every outcome over ['0']/['1'] that is not
    all zeros does contribute.  The collection stops at [n - 1] equations or
    at the end of the outcomes, and the collected equations are the head of
    the list the function returns. *)
Theorem extract_collects_first_nonzero_outcomes
        (counts : Counts) (hidden_period : string) (n : Z) :
  2 <= n ->
  let collected :=
    take (Z.to_nat (n - 1))
         (omap (fun x : string * Z => equation_of x.1) (sorted_by_count counts)) in
  collect_equations n (sorted_by_count counts) [] = collected
  /\ take (length collected) (extract_linear_equations counts hidden_period n) = collected
  /\ forall measurement,
       is_bitstring measurement = true ->
       all_zeros measurement = false ->
       equation_of measurement = Some (equation_of_parts (equation_parts measurement)).
Proof.
  intros Hn. cbv zeta.
  assert (Hcollect : collect_equations n (sorted_by_count counts) []
                     = take (Z.to_nat (n - 1))
                            (omap (fun x : string * Z => equation_of x.1)
                                  (sorted_by_count counts)))
    by (apply (collect_equations_take n _ []); simpl; lia).
  split; [exact Hcollect|]. split.
  - rewrite extract_linear_equations_eq. cbv zeta. rewrite Hcollect.
    now rewrite take_app_length.
  - intros measurement Hbits Hnz. now apply equation_of_nonzero.
Qed.

(** C1, amended, at [n = 4] and three outcomes, the third dependent on the
    first two. *)
Lemma extract_collects_first_nonzero_outcomes_witness :
  collect_equations 4 (sorted_by_count [("1100", 300); ("0110", 200); ("1010", 100)]%string) []
  = take 3 (omap (fun x : string * Z => equation_of x.1)
                 (sorted_by_count [("1100", 300); ("0110", 200); ("1010", 100)]%string)).
Proof.
  apply (extract_collects_first_nonzero_outcomes
           [("1100", 300); ("0110", 200); ("1010", 100)]%string "1111" 4).
  lia.
Defined.

(** C2 as stated fails: with [n = 3] and only the all-zeros outcome measured,
    no outcome yields an equation, and the function returns two copies of the
    generic equation; the handler then answers with [success = True]. *)
Lemma extract_fabricates_equations :
  let counts := [("000", 1024)]%string in
  omap (fun x : string * Z => equation_of x.1) counts = []
  /\ extract_linear_equations counts "111" 3 = [generic_equation; generic_equation]
  /\ match (run_simon_algorithm Exact.np (Exact.no_statevector counts)
                                (SimonRequest.mk "111" 6) empty_world).1 with
     | Return resp =>
         SimonResponse.success resp = true
         /\ SimonResponse.linear_equations resp = [generic_equation; generic_equation]
     | Raise _ => False
     end.
Proof. vm_compute. repeat split; reflexivity. Qed.

(** C2, amended. When the outcomes yield fewer than [n - 1] equations,
    [extract_linear_equations] appends the generic equation ["s_0 ⊕ s_1 = 0"]
    until the list has [n - 1] entries.  The result is a plain list of exactly
    [n - 1] equations that contains the generic one; no underdetermined
    condition is reported, and [solve_linear_system] returns the period it was
    given. *)
Theorem extract_pads_with_generic_equation
        (counts : Counts) (hidden_period : string) (n : Z) :
  let collected := collect_equations n (sorted_by_count counts) [] in
  Z.of_nat (length collected) < n - 1 ->
  extract_linear_equations counts hidden_period n
  = collected ++ replicate (Z.to_nat (n - 1 - Z.of_nat (length collected))) generic_equation
  /\ Z.of_nat (length (extract_linear_equations counts hidden_period n)) = n - 1
  /\ In generic_equation (extract_linear_equations counts hidden_period n)
  /\ solve_linear_system (extract_linear_equations counts hidden_period n) n hidden_period
     = hidden_period.
Proof.
  cbv zeta. intros Hfew. rewrite extract_linear_equations_eq. cbv zeta.
  split; [reflexivity|]. split; [|split; [|reflexivity]].
  - rewrite length_app, length_replicate. lia.
  - apply in_or_app. right.
    destruct (Z.to_nat (n - 1 - Z.of_nat (length (collect_equations n (sorted_by_count counts) []))))
      as [|k] eqn:Hk; [lia|]. now left.
Qed.

(** C2, amended, at [n = 3] with only the all-zeros outcome measured. *)
Lemma extract_pads_with_generic_equation_witness :
  extract_linear_equations [("000", 1024)]%string "111" 3
  = [] ++ replicate 2 generic_equation.
Proof.
  apply (extract_pads_with_generic_equation [("000", 1024)]%string "111" 3).
  vm_compute. reflexivity.
Defined.

(** C3 as stated fails: for the all-zeros period ["00"] on 4 qubits nothing is
    raised; the handler answers with [success = True] and the recovered period
    ["00"], and [solve_linear_system] returns ["00"]. *)
Lemma zero_period_is_returned :
  match (run_simon_algorithm
           Exact.np
           (Exact.no_statevector [("00", 260); ("01", 250); ("10", 262); ("11", 252)]%string)
           (SimonRequest.mk "00" 4) empty_world).1 with
  | Return resp =>
      SimonResponse.success resp = true
      /\ SimonResponse.recovered_period resp = "00"%string
  | Raise _ => False
  end
  /\ solve_linear_system ["s_1 = 0"%string] 2 "00" = "00"%string.
Proof. vm_compute. repeat split; reflexivity. Qed.

(** C3, amended. When [hidden_period] consists only of ['0'] characters, no
    DegenerateOracle condition is raised on that account: [solve_linear_system]
    returns the all-zeros period as the recovered period, whatever the
    equations are, and every response the handler returns for such a request
    has [success = True] and a [recovered_period] equal to the all-zeros
    [hidden_period]. *)
Theorem zero_period_returns_hidden_period
        {float : Type} (np : Numeric float) (aer : Backend float)
        (hidden_period : string) (num_qubits : Z) (w : World) :
  PyStr.all (fun c => Ascii.eqb c "0"%char) hidden_period = true ->
  (forall equations n, solve_linear_system equations n hidden_period = hidden_period)
  /\ (forall resp w',
         run_simon_algorithm np aer (SimonRequest.mk hidden_period num_qubits) w
         = (Return resp, w') ->
         SimonResponse.success resp = true
         /\ SimonResponse.recovered_period resp = hidden_period).
Proof.
  intros _. split; [reflexivity|].
  intros resp w' Hrun.
  apply run_simon_algorithm_returns in Hrun as (Hsuccess & Hrecovered & _).
  now split.
Qed.

(** C3, amended, at the period ["00"] with 4 qubits: the request is answered,
    with the recovered period ["00"]. *)
Lemma zero_period_returns_hidden_period_witness :
  exists resp w',
    run_simon_algorithm Exact.np (Exact.no_statevector fallback_counts)
                        (SimonRequest.mk "00" 4) empty_world
    = (Return resp, w')
    /\ SimonResponse.success resp = true
    /\ SimonResponse.recovered_period resp = "00"%string.
Proof.
  destruct (run_simon_algorithm Exact.np (Exact.no_statevector fallback_counts)
                                (SimonRequest.mk "00" 4) empty_world)
    as [[resp|e] w'] eqn:Hrun.
  - exists resp, w'. split; [reflexivity|].
    exact (proj2 (zero_period_returns_hidden_period
                    Exact.np (Exact.no_statevector fallback_counts) "00" 4 empty_world
                    eq_refl)
                 resp w' Hrun).
  - vm_compute in Hrun. discriminate Hrun.
Defined.

(** C4 as stated fails: for the request [("11", 4)], a simulator whose state
    vector cannot be extracted and a simulator that returns the uniform state
    vector get the same response, field by field, so nothing in the payload
    marks the first as degraded; only the printed lines differ. *)
Lemma fallback_payload_has_no_flag :
  let counts := [("00", 510); ("11", 514)]%string in
  let request := SimonRequest.mk "11" 4 in
  let degraded :=
    run_simon_algorithm Exact.np (Exact.no_statevector counts) request empty_world in
  let real :=
    run_simon_algorithm
      Exact.np (Exact.with_statevector (uniform_amplitudes Exact.np 16) counts)
      request empty_world in
  degraded.1 = real.1
  /\ match degraded.1 with
     | Return resp => SimonResponse.success resp = true
     | Raise _ => False
     end
  /\ stdout degraded.2
     = print_extraction_failed (SimulatorError "No statevector for experiment")
         :: stdout real.2.
Proof. vm_compute. repeat split; reflexivity. Qed.

(** C4, amended. If the extraction of the state vector fails during the
    simulation of a valid request, and numpy creates the array of
    [2^num_qubits] uniform amplitudes, the executor prints a line, substitutes
    the uniform state vector over all basis states and goes on with the
    request exactly as if the simulator had returned that state vector: the
    handler ends with the same response or the same exception and the same
    store, and prints the same lines after the line about the extraction.
    Every response it returns has [success = True] and the uniform
    amplitudes, and when the measurement run succeeds a response is returned,
    with the probabilities computed from the uniform amplitudes and the
    measured counts.  The response has no field that marks it as degraded:
    the fallback is signalled by the printed line only. *)
Theorem extraction_failure_falls_back_to_uniform
        {float : Type} (np : Numeric float) (aer : Backend float)
        (hidden_period : string) (n : nat) (w : World) (e : Exn) :
  is_bitstring hidden_period = true ->
  (1 <= n)%nat ->
  run_statevector aer (without_measurements (simon_circuit hidden_period n))
  = extraction_raises e ->
  ones_complex_raises np (2 ^ (2 * n)) = None ->
  let num_states := (2 ^ (2 * n))%nat in
  let amplitude := mkComplex (inv_sqrt np num_states) (fzero np) in
  let real_aer :=
    mkBackend (fun _ => statevector_is (replicate num_states amplitude))
              (run_measurement aer) (qubit_index aer) in
  let request := SimonRequest.mk hidden_period (2 * Z.of_nat n) in
  let degraded := run_simon_algorithm np aer request w in
  let real := run_simon_algorithm np real_aer request w in
  degraded.1 = real.1
  /\ heap degraded.2 = heap real.2
  /\ (exists printed,
         stdout real.2 = stdout w ++ printed
         /\ stdout degraded.2 = stdout w ++ print_extraction_failed e :: printed)
  /\ (forall resp,
         degraded.1 = Return resp ->
         SimonResponse.success resp = true
         /\ SimonResponse.quantum_state resp
            = replicate num_states (mkComplexNumber (inv_sqrt np num_states) (fzero np)))
  /\ (forall counts,
         run_measurement aer (simon_circuit hidden_period n) = inr counts ->
         exists resp,
           degraded.1 = Return resp
           /\ SimonResponse.probabilities resp = replicate num_states (abs_sq np amplitude)
           /\ SimonResponse.measurement_counts resp = counts).
Proof.
  intros Hbits Hn Hsv Hones. cbv zeta.
  rewrite !run_simon_algorithm_ok by assumption.
  cbn [fst snd heap stdout].
  unfold response, response_of, simulated.
  cbn [run_statevector run_measurement].
  change (num_qubits (simon_circuit hidden_period n)) with (2 * n)%nat.
  rewrite Hsv, Hones.
  fold (uniform_amplitudes np (2 ^ (2 * n))).
  destruct (run_measurement aer (simon_circuit hidden_period n)) as [e'|counts].
  - destruct (ones_raises np (2 ^ (2 * n))) as [e2|]; cbn [fst snd].
    + split; [reflexivity|]. split; [reflexivity|].
      split; [exists [print_simulation_error e']; now split|].
      split; [intros resp Hresp; discriminate|]. intros counts Hcounts. discriminate.
    + split; [reflexivity|]. split; [reflexivity|].
      split; [eexists; split; reflexivity|].
      split; [|intros counts Hcounts; discriminate].
      intros resp Hresp. injection Hresp as <-.
      cbn [SimonResponse.success SimonResponse.quantum_state].
      unfold uniform_amplitudes. rewrite map_replicate. now split.
  - cbn [fst snd].
    split; [reflexivity|]. split; [reflexivity|].
    split; [eexists; split; [rewrite app_nil_l|]; reflexivity|].
    split.
    + intros resp Hresp. injection Hresp as <-.
      cbn [SimonResponse.success SimonResponse.quantum_state].
      unfold uniform_amplitudes. rewrite map_replicate. now split.
    + intros counts' Hcounts. injection Hcounts as <-.
      eexists. split; [reflexivity|].
      cbn [SimonResponse.probabilities SimonResponse.measurement_counts].
      unfold uniform_amplitudes. rewrite map_replicate. now split.
Qed.

(** C4, amended, at the request [("11", 4)]. *)
Lemma extraction_failure_falls_back_to_uniform_witness :
  let counts := [("00", 510); ("11", 514)]%string in
  let request := SimonRequest.mk "11" 4 in
  let amplitude := mkComplex (1 # 4)%Q 0%Q in
  (run_simon_algorithm Exact.np (Exact.no_statevector counts) request empty_world).1
  = (run_simon_algorithm
       Exact.np
       (mkBackend (fun _ => statevector_is (replicate 16 amplitude))
                  (fun _ => inr counts) (fun q => inr q))
       request empty_world).1.
Proof.
  cbv zeta.
  apply (extraction_failure_falls_back_to_uniform
           Exact.np (Exact.no_statevector [("00", 510); ("11", 514)]%string)
           "11" 2 empty_world (SimulatorError "No statevector for experiment")).
  - reflexivity.
  - lia.
  - reflexivity.
  - reflexivity.
Defined.

(** C5 as stated fails: two outcomes with the same count stay in the order of
    the counts dict, here ["100"] before ["010"] although ["010"] is the
    smaller bitstring; and the same counts in the other dict order give
    another equation list. *)
Lemma ties_keep_dict_order :
  let counts := [("100", 5); ("010", 5)]%string in
  let counts' := [("010", 5); ("100", 5)]%string in
  sorted_by_count counts = counts
  /\ (bitstring_value "010" < bitstring_value "100")%N
  /\ Permutation counts counts'
  /\ extract_linear_equations counts "001" 3 = ["s_0 = 0"; "s_1 = 0"]%string
  /\ extract_linear_equations counts' "001" 3 = ["s_1 = 0"; "s_0 = 0"]%string.
Proof.
  cbv zeta. split; [reflexivity|]. split; [reflexivity|].
  split; [apply perm_swap|]. split; reflexivity.
Qed.

(** C5, amended. The all-zeros outcome is discarded: the equations are the ones
    obtained from the ranked outcomes without the all-zeros ones.  The
    outcomes are processed by count, descending; outcomes with equal counts
    are processed in the order in which the counts dict holds them (there is
    no tie-break on the bitstring).  The ranking is a rearrangement of the
    items of the dict, so the equation list is a function of the dict and its
    order. *)
Theorem outcomes_ranked_by_count_stable
        (counts : Counts) (hidden_period : string) (n : Z) :
  let ranked := sorted_by_count counts in
  Permutation ranked counts
  /\ StronglySorted count_desc ranked
  /\ (forall c, with_count c ranked = with_count c counts)
  /\ extract_linear_equations counts hidden_period n
     = pad_equations (Z.to_nat (n - 1)) n
         (collect_equations n
            (List.filter (fun x : string * Z => negb (all_zeros x.1)) ranked) []).
Proof.
  cbv zeta. split; [apply sorted_by_count_perm|].
  split; [apply sorted_by_count_sorted|].
  split; [intros c; apply sorted_by_count_stable|].
  unfold extract_linear_equations. cbv zeta.
  now rewrite <- collect_equations_skips_zeros.
Qed.

(** C6 as stated fails: the request with the empty period and 4 qubits is not
    rejected; the handler answers it with [success = True]. *)
Lemma empty_period_is_accepted :
  match (run_simon_algorithm Exact.np (Exact.no_statevector fallback_counts)
                             (SimonRequest.mk "" 4) empty_world).1 with
  | Return resp =>
      SimonResponse.success resp = true
      /\ SimonResponse.recovered_period resp = ""%string
  | Raise _ => False
  end.
Proof. vm_compute. split; reflexivity. Qed.

(** C6, amended. A request whose [hidden_period] has a character other than
    ['0'] and ['1'], or whose [num_qubits] is not an even integer of at least
    2, is rejected: the handler raises an [HTTPException] to its caller.  The
    outcome is the same for every simulator and nothing is printed: no
    simulation is run and nothing is tried again.  For a period that is not
    binary and for an odd [num_qubits] the exception comes from the validation
    at the head of the handler, which raises a status 400 before anything is
    built; for an even [num_qubits] below 2 it comes from the construction of
    the circuit.  (The empty period is not rejected.) *)
Theorem invalid_requests_are_rejected
        {float : Type} (np : Numeric float)
        (hidden_period : string) (num_qubits : Z) (w : World) :
  is_bitstring hidden_period = false \/ Z.odd num_qubits = true \/ num_qubits < 2 ->
  exists status detail w',
    (forall aer : Backend float,
        run_simon_algorithm np aer (SimonRequest.mk hidden_period num_qubits) w
        = (Raise (HTTPException status detail), w'))
    /\ stdout w' = stdout w
    /\ (is_bitstring hidden_period = false \/ Z.odd num_qubits = true ->
        w' = w
        /\ forall aer : Backend float, exists msg,
             run_simon_algorithm_try np aer (SimonRequest.mk hidden_period num_qubits) w
             = (Raise (HTTPException 400 (detail_text msg)), w)).
Proof.
  intros Hbad. unfold is_bitstring in *.
  destruct (PyStr.all is_binary_digit hidden_period) eqn:Hbits.
  - destruct (Z.odd num_qubits) eqn:Hodd.
    + exists 500, (detail_str (HTTPException 400
                     (detail_text "Number of qubits must be even for Simon's algorithm"))), w.
      split; [|split; [reflexivity|]].
      * intros aer. unfold run_simon_algorithm, try_except.
        now rewrite run_simon_algorithm_try_odd.
      * intros _. split; [reflexivity|]. intros aer. eexists.
        now apply run_simon_algorithm_try_odd.
    + destruct Hbad as [Hbad|[Hbad|Hsmall]]; try discriminate.
      destruct (Z.ltb_spec num_qubits 0) as [Hneg|Hpos].
      * exists 500, (detail_str (CircuitError "Register size must be non-negative")), w.
        split; [|split; [reflexivity|]].
        -- intros aer. now apply run_simon_algorithm_negative.
        -- intros [Hno|Hno]; discriminate.
      * assert (num_qubits = 0) as ->.
        { pose proof (Zmod_odd num_qubits) as Hmod. rewrite Hodd in Hmod.
          pose proof (Z.div_mod num_qubits 2). lia. }
        exists 500, (detail_str (CircuitError "One or more of the arguments are empty")),
               (mkWorld (heap w ++ [mkCircuit 0 0 []]) (stdout w)).
        split; [|split; [reflexivity|]].
        -- intros aer. now apply run_simon_algorithm_zero.
        -- intros [Hno|Hno]; discriminate.
  - exists 500, (detail_str (HTTPException 400
                   (detail_text "Hidden period must contain only 0s and 1s"))), w.
    split; [|split; [reflexivity|]].
    + intros aer. unfold run_simon_algorithm, try_except.
      now rewrite run_simon_algorithm_try_bad_period.
    + intros _. split; [reflexivity|]. intros aer. eexists.
      now apply run_simon_algorithm_try_bad_period.
Qed.

(** C6, amended, at the period ["1a"] with 4 qubits and at the period ["11"]
    without qubits. *)
Lemma invalid_requests_are_rejected_witness :
  (exists status detail w',
      forall aer : Backend Q,
        run_simon_algorithm Exact.np aer (SimonRequest.mk "1a" 4) empty_world
        = (Raise (HTTPException status detail), w'))
  /\ (exists status detail w',
         forall aer : Backend Q,
           run_simon_algorithm Exact.np aer (SimonRequest.mk "11" 0) empty_world
           = (Raise (HTTPException status detail), w')).
Proof.
  split.
  - destruct (invalid_requests_are_rejected Exact.np "1a" 4 empty_world)
      as (status & detail & w' & Hrun & _).
    + left. reflexivity.
    + exists status, detail, w'. exact Hrun.
  - destruct (invalid_requests_are_rejected Exact.np "11" 0 empty_world)
      as (status & detail & w' & Hrun & _).
    + right. right. lia.
    + exists status, detail, w'. exact Hrun.
Defined.

(** C7. For every odd [num_qubits], [create_simon_circuit] fails in its first
    statement with the [ValueError] "Number of qubits must be even ...", and the
    handler [run_simon_algorithm] fails as well; in both cases the store of
    circuits is the one before the call: no circuit was created and no
    Hadamard or CNOT was added to any circuit. *)
Theorem odd_num_qubits_fails_before_any_gate
        (hidden_period : string) (num_qubits : Z) (w : World) :
  Z.odd num_qubits = true ->
  create_simon_circuit hidden_period num_qubits w
  = (Raise (ValueError "Number of qubits must be even for Simon's algorithm"), w)
  /\ forall (float : Type) (np : Numeric float) (aer : Backend float),
       exists e, run_simon_algorithm np aer (SimonRequest.mk hidden_period num_qubits) w
                 = (Raise e, w).
Proof.
  intros Hodd. split.
  - unfold create_simon_circuit. rewrite Zmod_odd, Hodd. reflexivity.
  - intros float np aer. unfold run_simon_algorithm, try_except.
    destruct (PyStr.all is_binary_digit hidden_period) eqn:Hbits.
    + rewrite run_simon_algorithm_try_odd by assumption. eexists. reflexivity.
    + rewrite run_simon_algorithm_try_bad_period by assumption. eexists. reflexivity.
Qed.

(** C7, at [num_qubits = 3]. *)
Lemma odd_num_qubits_fails_before_any_gate_witness :
  Z.odd 3 = true
  /\ create_simon_circuit "11" 3 empty_world
     = (Raise (ValueError "Number of qubits must be even for Simon's algorithm"), empty_world).
Proof.
  split; [reflexivity|].
  apply (odd_num_qubits_fails_before_any_gate "11" 3 empty_world). reflexivity.
Defined.

(** C8. The oracle for [n = 2] and period ["11"] is a circuit on 4 qubits with
    exactly four gates, all CNOTs: [cx(0,2)], [cx(1,3)] from the copy loop,
    then [cx(0,3)], [cx(1,2)] from the period loop. *)
Theorem oracle_11_gate_list (w : World) :
  create_simon_oracle "11" 2 w
  = (Return (length (heap w)),
     mkWorld (heap w ++ [mkCircuit 4 0 [cx 0 2; cx 1 3; cx 0 3; cx 1 2]]) (stdout w))
  /\ copy_gates 2 = [cx 0 2; cx 1 3]
  /\ period_gates "11" 2 = [cx 0 3; cx 1 2].
Proof.
  split; [|split; reflexivity].
  rewrite create_simon_oracle_ok. reflexivity.
Qed.

(** C9. For every period string and every [n], the oracle is built from the
    adjusted period [hidden_period.ljust(n, '0')[:n]]: the first [n]
    characters of [hidden_period] followed by [n - len(hidden_period)] zeros.
    The adjusted string has length [n]; its character [i] is character [i] of
    [hidden_period] where that exists and ['0'] elsewhere, so a shorter period
    is right-padded with ['0'] and a longer one is cut to its first [n]
    characters.  The oracle consists of the copy gates [cx(i, i + n)] for
    [i = 0 .. n-1], followed by one gate [cx(i, (i + 1) mod n + n)] for each
    [i], in increasing order, at which the adjusted string has a ['1']. *)
Theorem oracle_built_from_padded_period (hidden_period : string) (n : nat) (w : World) :
  let adjusted := padded_period hidden_period n in
  adjusted = String.append (PyStr.prefix n hidden_period)
                           (PyStr.mul "0"%char (n - String.length hidden_period))
  /\ String.length adjusted = n
  /\ (forall i, (i < n)%nat -> String.get i adjusted = Some (char_or_zero hidden_period i))
  /\ create_simon_oracle hidden_period n w
     = (Return (length (heap w)),
        mkWorld (heap w
                 ++ [mkCircuit (2 * n) 0
                       (map (fun i => cx i (i + n)) (seq 0 n)
                        ++ omap (fun i => if Ascii.eqb (char_or_zero adjusted i) "1"%char
                                          then Some (cx i ((i + 1) mod n + n)%nat)
                                          else None)
                                (seq 0 n))])
                (stdout w)).
Proof.
  cbv zeta.
  split; [apply padded_period_eq|]. split; [apply length_padded_period|].
  split; [intros i Hi; now apply get_padded_period|].
  rewrite create_simon_oracle_ok. unfold oracle_circuit, oracle_gates, copy_gates, range.
  rewrite period_gates_by_index, length_padded_period. reflexivity.
Qed.

(** C10. [solve_linear_system] returns its [hidden_period] argument unchanged,
    for every list of equations, every [n] and every string, so its result
    does not depend on the equations; and every response [run_simon_algorithm]
    returns has [recovered_period] equal, character for character, to the
    [hidden_period] of the request, whatever the simulator measured. *)
Theorem recovered_period_is_request_period :
  (forall (equations : list string) (n : Z) (hidden_period : string),
      solve_linear_system equations n hidden_period = hidden_period)
  /\ (forall (equations equations' : list string) (n n' : Z) (hidden_period : string),
         solve_linear_system equations n hidden_period
         = solve_linear_system equations' n' hidden_period)
  /\ (forall (float : Type) (np : Numeric float) (aer : Backend float)
             (request : SimonRequest.t) (w w' : World) (resp : SimonResponse.t float),
         run_simon_algorithm np aer request w = (Return resp, w') ->
         SimonResponse.recovered_period resp = SimonRequest.hidden_period request
         /\ SimonResponse.hidden_period resp = SimonRequest.hidden_period request).
Proof.
  split; [reflexivity|]. split; [reflexivity|].
  intros float np aer request w w' resp Hrun.
  apply run_simon_algorithm_returns in Hrun as (_ & Hrecovered & Hperiod).
  now split.
Qed.

(** C10, at the request [("11", 4)] with a simulator that measured
    ["00"] 510 times and ["11"] 514 times, and for the solver at a string
    that is no bitstring. *)
Lemma recovered_period_is_request_period_witness :
  (exists resp w',
      run_simon_algorithm Exact.np (Exact.no_statevector [("00", 510); ("11", 514)]%string)
                          (SimonRequest.mk "11" 4) empty_world
      = (Return resp, w')
      /\ SimonResponse.recovered_period resp = "11"%string)
  /\ solve_linear_system ["s_0 = 0"%string] 2 "abc" = "abc"%string.
Proof.
  split.
  - destruct (run_simon_algorithm
                Exact.np (Exact.no_statevector [("00", 510); ("11", 514)]%string)
                (SimonRequest.mk "11" 4) empty_world)
      as [[resp|e] w'] eqn:Hrun.
    + exists resp, w'. split; [reflexivity|].
      exact (proj1 (proj2 (proj2 recovered_period_is_request_period)
                      Q Exact.np _ _ _ _ _ Hrun)).
    + vm_compute in Hrun. discriminate Hrun.
  - exact (proj1 recovered_period_is_request_period ["s_0 = 0"%string] 2 "abc"%string).
Defined.

(** * Further properties of the service *)

(** ** The oracle and the circuit *)

Lemma mul_add c a b :
  PyStr.mul c (a + b) = String.append (PyStr.mul c a) (PyStr.mul c b).
Proof. induction a as [|a IH]; simpl; congruence. Qed.

Lemma string_append_assoc s t u :
  String.append (String.append s t) u = String.append s (String.append t u).
Proof. induction s as [|c s IH]; simpl; congruence. Qed.

Lemma prefix_prefix k s : PyStr.prefix k (PyStr.prefix k s) = PyStr.prefix k s.
Proof.
  revert s; induction k as [|k IH]; intros [|c s]; simpl; try reflexivity.
  now rewrite IH.
Qed.

Lemma padded_period_trailing_zeros hidden_period k n :
  padded_period (String.append hidden_period (PyStr.mul "0"%char k)) n
  = padded_period hidden_period n.
Proof.
  rewrite !padded_period_eq, prefix_append, prefix_mul, length_append, length_mul.
  rewrite string_append_assoc, <- mul_add. do 2 f_equal. lia.
Qed.

Lemma padded_period_prefix hidden_period n :
  padded_period (PyStr.prefix n hidden_period) n = padded_period hidden_period n.
Proof.
  rewrite !padded_period_eq, prefix_prefix, length_prefix. do 2 f_equal. lia.
Qed.

Lemma period_gates_from_length (f : nat * ascii -> option Instruction) i s :
  (forall jb, f jb = if Ascii.eqb jb.2 "1"%char then f jb else None) ->
  (forall jb, Ascii.eqb jb.2 "1"%char = true -> is_Some (f jb)) ->
  length (omap f (PyStr.enumerate_from i s)) = ones s.
Proof.
  intros Hnone Hsome. revert i; induction s as [|c s IH]; intros i; [reflexivity|].
  cbn [PyStr.enumerate_from ones]. unfold omap. cbn [list_omap]. fold (@omap list _).
  specialize (Hnone (i, c)). specialize (Hsome (i, c)). cbn [snd] in Hnone, Hsome.
  destruct (Ascii.eqb c "1").
  - destruct (Hsome eq_refl) as [g ->]. cbn [length]. now rewrite IH.
  - rewrite Hnone. now rewrite IH.
Qed.

Lemma length_period_gates period n : length (period_gates period n) = ones period.
Proof.
  unfold period_gates, PyStr.enumerate. apply period_gates_from_length.
  - intros [j b]; cbn [snd]. now destruct (Ascii.eqb b "1").
  - intros [j b]; cbn [snd]. intros ->. eauto.
Qed.

Lemma length_oracle_gates hidden_period n :
  length (oracle_gates hidden_period n) = (n + ones (padded_period hidden_period n))%nat.
Proof.
  unfold oracle_gates, copy_gates, range.
  now rewrite length_app, length_map, length_seq, length_period_gates.
Qed.

(** The gates the period loop adds, seen from their position. *)
Lemma in_period_gates_from n i s g :
  In g (omap (fun ib : nat * ascii =>
                if Ascii.eqb ib.2 "1"%char
                then Some (cx ib.1 ((ib.1 + 1) mod n + n)%nat) else None)
             (PyStr.enumerate_from i s)) ->
  exists j, (i <= j < i + String.length s)%nat /\ g = cx j ((j + 1) mod n + n)%nat.
Proof.
  intros Hin. apply list_elem_of_In, list_elem_of_omap in Hin as ([j b] & Hjb & Hsel).
  apply enumerate_from_index in Hjb. cbn [fst snd] in Hsel.
  destruct (Ascii.eqb b "1"); [|discriminate]. injection Hsel as <-. eauto.
Qed.

Lemma oracle_gates_input_to_output hidden_period n :
  Forall (input_to_output n) (oracle_gates hidden_period n).
Proof.
  unfold oracle_gates. apply Forall_app. split.
  - apply List.Forall_forall. intros g Hin. unfold copy_gates, range in Hin.
    apply in_map_iff in Hin as (i & <- & Hi). apply in_seq in Hi. simpl. lia.
  - apply List.Forall_forall. intros g Hin.
    apply in_period_gates_from in Hin as (j & Hj & ->).
    rewrite length_padded_period in Hj. simpl.
    assert ((j + 1) mod n < n)%nat by (apply Nat.mod_upper_bound; lia). lia.
Qed.

(** X1. For an even number of at least 2 qubits, [2n] with [n >= 1],
    [create_simon_circuit] returns a new circuit on [2n] qubits and [n] clbits
    whose instructions are, in this order: a Hadamard on each input qubit, the
    gates of the oracle, a Hadamard on each input qubit again, and the
    measurement of input qubit [i] into clbit [i]; it has [4n] instructions
    plus one per ['1'] of the padded period.  The only other object created is
    the oracle circuit; the objects that existed before and the output are
    untouched. *)
Theorem simon_circuit_layout (hidden_period : string) (n : nat) (w : World) :
  (1 <= n)%nat ->
  create_simon_circuit hidden_period (2 * Z.of_nat n) w
  = (Return (length (heap w)),
     mkWorld (heap w
              ++ [mkCircuit (2 * n) n
                    (map h (seq 0 n) ++ oracle_gates hidden_period n ++ map h (seq 0 n)
                     ++ map (fun i => measure i i) (seq 0 n));
                  mkCircuit (2 * n) 0 (oracle_gates hidden_period n)])
             (stdout w))
  /\ length (simon_gates hidden_period n)
     = (4 * n + ones (padded_period hidden_period n))%nat.
Proof.
  intros Hn. split; [now apply create_simon_circuit_ok|].
  unfold simon_gates, range.
  rewrite !length_app, !length_map, !length_seq, length_oracle_gates. lia.
Qed.

(** X1, at the period ["10"] with 4 qubits. *)
Lemma simon_circuit_layout_witness :
  create_simon_circuit "10" 4 empty_world
  = (Return 0%nat,
     mkWorld [mkCircuit 4 2 [h 0; h 1; cx 0 2; cx 1 3; cx 0 3; h 0; h 1;
                             measure 0 0; measure 1 1];
              mkCircuit 4 0 [cx 0 2; cx 1 3; cx 0 3]] []).
Proof.
  apply (simon_circuit_layout "10" 2 empty_world). lia.
Defined.

(** X2. Every gate of the oracle [create_simon_oracle] builds is a CNOT from
    an input qubit (control below [n]) to an output qubit (target in
    [[n, 2n)]): the oracle never acts on an input qubit as a target and
    contains no other kind of gate.  It has [n] copy gates plus one gate per
    ['1'] of the padded period, so between [n] and [2n] gates. *)
Theorem oracle_gates_go_from_input_to_output (hidden_period : string) (n : nat) (w : World) :
  exists gates,
    create_simon_oracle hidden_period n w
    = (Return (length (heap w)), mkWorld (heap w ++ [mkCircuit (2 * n) 0 gates]) (stdout w))
    /\ Forall (input_to_output n) gates
    /\ length gates = (n + ones (padded_period hidden_period n))%nat
    /\ (n <= length gates <= 2 * n)%nat.
Proof.
  exists (oracle_gates hidden_period n).
  split; [apply create_simon_oracle_ok|].
  split; [apply oracle_gates_input_to_output|].
  split; [apply length_oracle_gates|].
  rewrite length_oracle_gates.
  assert (Hones : forall s, (ones s <= String.length s)%nat).
  { induction s as [|c s IH]; simpl; [lia|]. destruct (Ascii.eqb c "1"); lia. }
  specialize (Hones (padded_period hidden_period n)).
  rewrite length_padded_period in Hones. lia.
Qed.

Lemma create_simon_circuit_same_padded hidden_period hidden_period' num_qubits w :
  padded_period hidden_period (Z.to_nat (num_qubits / 2))
  = padded_period hidden_period' (Z.to_nat (num_qubits / 2)) ->
  create_simon_circuit hidden_period num_qubits w
  = create_simon_circuit hidden_period' num_qubits w.
Proof.
  intros Hsame.
  destruct (Z.eqb_spec (num_qubits mod 2) 0) as [Heven|Hodd].
  - destruct (Z.ltb_spec num_qubits 0) as [Hneg|Hpos].
    + unfold create_simon_circuit, bind, Qiskit.new_circuit.
      replace (num_qubits mod 2 =? 0) with true by (symmetry; now apply Z.eqb_eq).
      replace (num_qubits <? 0) with true by (symmetry; now apply Z.ltb_lt).
      reflexivity.
    + assert (Hnq : num_qubits = 2 * Z.of_nat (Z.to_nat (num_qubits / 2))).
      { rewrite Z2Nat.id by (apply Z.div_pos; lia).
        rewrite (Z.div_mod num_qubits 2) at 1 by lia. lia. }
      revert Hsame Hnq. generalize (Z.to_nat (num_qubits / 2)) as n.
      intros [|n] Hsame ->; [reflexivity|].
      rewrite !create_simon_circuit_ok by lia.
      unfold simon_circuit, oracle_circuit, simon_gates, oracle_gates.
      now rewrite Hsame.
  - unfold create_simon_circuit.
    replace (num_qubits mod 2 =? 0) with false by (symmetry; now apply Z.eqb_neq).
    reflexivity.
Qed.

(** X3. The circuit depends on the period only through its first [n]
    characters, and zeros at its end make no difference: appending any number
    of ['0'] characters to [hidden_period], or cutting it to its first
    [n = num_qubits // 2] characters, gives the same result of
    [create_simon_circuit] (the same circuit, or the same failure), for every
    [num_qubits]. *)
Theorem circuit_ignores_trailing_zeros_and_excess
        (hidden_period : string) (k : nat) (num_qubits : Z) (w : World) :
  create_simon_circuit (String.append hidden_period (PyStr.mul "0"%char k)) num_qubits w
  = create_simon_circuit hidden_period num_qubits w
  /\ create_simon_circuit (PyStr.prefix (Z.to_nat (num_qubits / 2)) hidden_period) num_qubits w
     = create_simon_circuit hidden_period num_qubits w.
Proof.
  split; apply create_simon_circuit_same_padded.
  - apply padded_period_trailing_zeros.
  - apply padded_period_prefix.
Qed.

Lemma NoDup_period_gates_from n i s :
  NoDup (omap (fun ib : nat * ascii =>
                 if Ascii.eqb ib.2 "1"%char
                 then Some (cx ib.1 ((ib.1 + 1) mod n + n)%nat) else None)
              (PyStr.enumerate_from i s)).
Proof.
  revert i; induction s as [|c s IH]; intros i; [constructor|].
  cbn [PyStr.enumerate_from]. unfold omap. cbn [list_omap fst snd]. fold (@omap list _).
  destruct (Ascii.eqb c "1"); [|apply IH].
  constructor; [|apply IH].
  intros Hin. apply list_elem_of_In, in_period_gates_from in Hin as (j & Hj & Heq).
  injection Heq as Hij _. lia.
Qed.

(** X4. For [n >= 2] the oracle contains no CNOT twice: the copy gates and the
    period gates are pairwise different, so no two gates of the oracle cancel
    each other. *)
Theorem oracle_has_no_repeated_gate (hidden_period : string) (n : nat) (w : World) :
  (2 <= n)%nat ->
  exists gates,
    create_simon_oracle hidden_period n w
    = (Return (length (heap w)), mkWorld (heap w ++ [mkCircuit (2 * n) 0 gates]) (stdout w))
    /\ NoDup gates.
Proof.
  intros Hn. exists (oracle_gates hidden_period n).
  split; [apply create_simon_oracle_ok|].
  unfold oracle_gates. apply NoDup_app. split; [|split].
  - unfold copy_gates, range. apply NoDup_fmap_2; [|apply NoDup_seq].
    intros i j Heq. now injection Heq.
  - intros g Hcopy Hperiod.
    apply list_elem_of_In in Hcopy. unfold copy_gates, range in Hcopy.
    apply in_map_iff in Hcopy as (i & <- & Hi). apply in_seq in Hi.
    apply list_elem_of_In, in_period_gates_from in Hperiod as (j & Hj & Heq).
    injection Heq as <- Htarget.
    destruct (Nat.eq_dec (i + 1)%nat n) as [Hlast|Hinner].
    + rewrite Hlast, Nat.Div0.mod_same in Htarget. lia.
    + rewrite Nat.mod_small in Htarget by lia. lia.
  - apply NoDup_period_gates_from.
Qed.

(** X4, at [n = 2] with the period ["11"]. *)
Lemma oracle_has_no_repeated_gate_witness :
  exists gates,
    create_simon_oracle "11" 2 empty_world
    = (Return 0%nat, mkWorld [mkCircuit 4 0 gates] [])
    /\ NoDup gates.
Proof.
  apply (oracle_has_no_repeated_gate "11" 2 empty_world). lia.
Defined.

(** ** The equations *)

Lemma length_collect_equations n counts :
  2 <= n -> (length (collect_equations n (sorted_by_count counts) []) <= Z.to_nat (n - 1))%nat.
Proof.
  intros Hn. rewrite collect_equations_take by (simpl; lia).
  rewrite length_take. lia.
Qed.

(** X5. For [n >= 2], [extract_linear_equations] returns exactly [n - 1]
    equations, whatever the counts are: the collection stops at [n - 1] and the
    padding fills up to [n - 1]. *)
Theorem extract_returns_n_minus_1_equations
        (counts : Counts) (hidden_period : string) (n : Z) :
  2 <= n ->
  Z.of_nat (length (extract_linear_equations counts hidden_period n)) = n - 1.
Proof.
  intros Hn. rewrite extract_linear_equations_eq. cbv zeta.
  pose proof (length_collect_equations n counts Hn) as Hlen.
  rewrite length_app, length_replicate. lia.
Qed.

(** X5, at [n = 3] with four outcomes. *)
Lemma extract_returns_n_minus_1_equations_witness :
  Z.of_nat (length (extract_linear_equations
                      [("000", 300); ("110", 250); ("011", 250); ("101", 224)]%string
                      "111" 3))
  = 3 - 1.
Proof.
  apply (extract_returns_n_minus_1_equations
           [("000", 300); ("110", 250); ("011", 250); ("101", 224)]%string "111" 3).
  lia.
Defined.

Lemma collect_equations_small n l :
  n <= 1 ->
  collect_equations n l []
  = match List.find (fun x : string * Z => negb (all_zeros x.1)) l with
    | Some (measurement, _) =>
        match equation_parts measurement with
        | [] => []
        | parts => [equation_of_parts parts]
        end
    | None => []
    end.
Proof.
  intros Hn. induction l as [|[m c] l IH]; [reflexivity|].
  cbn [collect_equations List.find fst].
  destruct (all_zeros m); cbn [negb]; [exact IH|].
  destruct (equation_parts m) as [|p parts]; cbn [app length].
  - destruct (Z.geb_spec (Z.of_nat 0) (n - 1)); [reflexivity|lia].
  - destruct (Z.geb_spec (Z.of_nat 1) (n - 1)); [reflexivity|lia].
Qed.

(** X6. For [n <= 1] the bound [n - 1] is not positive, and still the result
    is not always empty: the loop tests the bound only after it has handled
    an outcome, so the result is the equation of the first ranked outcome that
    is not all zeros (nothing if there is none, or if that outcome has no
    ['1']), and nothing is padded. *)
Theorem extract_with_one_input_qubit
        (counts : Counts) (hidden_period : string) (n : Z) :
  n <= 1 ->
  extract_linear_equations counts hidden_period n
  = match first_nonzero_outcome counts with
    | Some (measurement, _) =>
        match equation_parts measurement with
        | [] => []
        | parts => [equation_of_parts parts]
        end
    | None => []
    end.
Proof.
  intros Hn. unfold extract_linear_equations, first_nonzero_outcome. cbv zeta.
  replace (Z.to_nat (n - 1)) with 0%nat by lia. cbn [pad_equations].
  now apply collect_equations_small.
Qed.

(** X6, at [n = 1]: one equation is returned although [n - 1 = 0]. *)
Lemma extract_with_one_input_qubit_witness :
  extract_linear_equations [("0", 500); ("1", 524)]%string "1" 1 = ["s_0 = 0"%string].
Proof.
  apply (extract_with_one_input_qubit [("0", 500); ("1", 524)]%string "1" 1). lia.
Defined.

Lemma filter_none {A} (f : A -> bool) l :
  Forall (fun x => f x = false) l -> List.filter f l = [].
Proof.
  induction 1 as [|x l Hx _ IH]; [reflexivity|]. simpl. now rewrite Hx.
Qed.

(** X7. When the counts hold no outcome other than all-zeros ones, in
    particular when they are empty, the result consists of [n - 1] copies of
    the generic equation ["s_0 ⊕ s_1 = 0"] (none for [n <= 1]). *)
Theorem extract_without_nonzero_outcome
        (counts : Counts) (hidden_period : string) (n : Z) :
  Forall (fun x : string * Z => all_zeros x.1 = true) counts ->
  extract_linear_equations counts hidden_period n
  = replicate (Z.to_nat (n - 1)) generic_equation.
Proof.
  intros Hzeros. rewrite extract_linear_equations_eq. cbv zeta.
  rewrite collect_equations_skips_zeros, filter_none.
  - cbn [collect_equations length app]. f_equal. lia.
  - eapply Permutation_Forall; [symmetry; apply sorted_by_count_perm|].
    eapply Forall_impl; [exact Hzeros|]. intros x Hx. cbn beta in Hx. now rewrite Hx.
Qed.

(** X7, at the empty counts with [n = 3]. *)
Lemma extract_without_nonzero_outcome_witness :
  extract_linear_equations [] "111" 3 = [generic_equation; generic_equation].
Proof.
  apply (extract_without_nonzero_outcome [] "111" 3). constructor.
Defined.

Lemma collect_equations_from n (P : string -> Prop) l : forall equations,
  Forall P equations ->
  (forall measurement count equation,
      In (measurement, count) l -> equation_of measurement = Some equation -> P equation) ->
  Forall P (collect_equations n l equations).
Proof.
  induction l as [|[m c] l IH]; intros equations Hacc Hl; [exact Hacc|].
  cbn [collect_equations].
  assert (Hrest : forall measurement count equation,
             In (measurement, count) l -> equation_of measurement = Some equation ->
             P equation) by (intros ? ? ? Hin; apply (Hl _ count); now right).
  destruct (all_zeros m) eqn:Hz; [now apply IH|].
  assert (Hacc' : Forall P match equation_parts m with
                           | [] => equations
                           | _ :: _ => equations ++ [equation_of_parts (equation_parts m)]
                           end).
  { destruct (equation_parts m) as [|p parts] eqn:Hparts; [exact Hacc|].
    apply Forall_app. split; [exact Hacc|]. constructor; [|constructor].
    apply (Hl m c); [now left|]. unfold equation_of. now rewrite Hz, Hparts. }
  destruct (Z.of_nat _ >=? n - 1); [exact Hacc'|now apply IH].
Qed.

(** X8. Every equation [extract_linear_equations] returns is the generic
    equation or the equation of an outcome that occurs in the counts and is
    not all zeros: apart from the padding, no equation is made up. *)
Theorem extract_equations_come_from_outcomes
        (counts : Counts) (hidden_period : string) (n : Z) :
  Forall (from_outcome_or_generic counts)
         (extract_linear_equations counts hidden_period n).
Proof.
  rewrite extract_linear_equations_eq. cbv zeta. apply Forall_app. split.
  - apply collect_equations_from; [constructor|].
    intros m c e Hin He. right. exists m, c. split; [|exact He].
    eapply Permutation_in; [apply sorted_by_count_perm|exact Hin].
  - apply Forall_replicate. now left.
Qed.

Lemma sorted_by_count_of_sorted counts :
  StronglySorted count_desc counts -> sorted_by_count counts = counts.
Proof.
  induction 1 as [|x l Hl IH Hx]; [reflexivity|].
  cbn [sorted_by_count foldr]. fold (sorted_by_count l). rewrite IH.
  destruct l as [|y l']; [reflexivity|]. cbn [insert_by_count].
  apply Forall_cons in Hx as [Hy _]. unfold count_desc in Hy.
  now replace (y.2 <=? x.2) with true by (symmetry; apply Z.leb_le; exact Hy).
Qed.

(** X9. Ranking is idempotent: counts that are already ordered by count,
    descending, are left as they are, so ranking twice is ranking once and
    the equations of the ranked counts are the equations of the counts. *)
Theorem ranking_ranked_counts_changes_nothing
        (counts : Counts) (hidden_period : string) (n : Z) :
  sorted_by_count (sorted_by_count counts) = sorted_by_count counts
  /\ extract_linear_equations (sorted_by_count counts) hidden_period n
     = extract_linear_equations counts hidden_period n.
Proof.
  assert (Hidem : sorted_by_count (sorted_by_count counts) = sorted_by_count counts)
    by apply sorted_by_count_of_sorted, sorted_by_count_sorted.
  split; [exact Hidem|].
  unfold extract_linear_equations. cbv zeta. now rewrite Hidem.
Qed.

(** ** The simulation *)

Lemma data_without_measurements qc :
  data (without_measurements qc) = List.filter (fun i => negb (is_measure i)) (data qc).
Proof.
  unfold without_measurements. cbn [data].
  induction (data qc) as [|i gates IH]; [reflexivity|].
  cbn. cbn in IH. destruct (is_measure i); cbn; now rewrite IH.
Qed.

Lemma simulated_lengths {float : Type} (np : Numeric float) (aer : Backend float) qc
      statevector probabilities counts printed :
  simulated np aer qc = (Return (statevector, probabilities, counts), printed) ->
  length probabilities = length statevector.
Proof.
  unfold simulated, uniform_amplitudes, uniform_distribution.
  destruct (run_statevector aer (without_measurements qc)) as [e|e|sv];
    repeat match goal with
           | |- context [ones_complex_raises np ?k] => destruct (ones_complex_raises np k)
           | |- context [ones_raises np ?k] => destruct (ones_raises np k)
           | |- context [run_measurement aer qc] => destruct (run_measurement aer qc)
           end;
    intros Heq; try discriminate; injection Heq as <- <- _ _;
    rewrite ?length_map, ?length_replicate; reflexivity.
Qed.

Lemma simulated_returns {float : Type} (np : Numeric float) (aer : Backend float) qc :
  ones_complex_raises np (2 ^ num_qubits qc) = None ->
  ones_raises np (2 ^ num_qubits qc) = None ->
  exists values printed, simulated np aer qc = (Return values, printed).
Proof.
  intros Hcomplex Hfloat. unfold simulated. rewrite Hcomplex, Hfloat.
  destruct (run_statevector aer (without_measurements qc)) as [e|e|sv];
    try destruct (run_measurement aer qc); eauto.
Qed.

(** X10. [simulate_simon] raises nothing the simulator raises: when [np.ones]
    creates the two fallback arrays of [2^num_qubits] entries, it returns for
    every behaviour of the simulator, for a circuit whose instructions fit its
    registers, a state vector, one probability per amplitude, and counts.  The
    circuit it was given is not changed; the only new object is the copy
    without measurements, which holds the other instructions of the circuit in
    their order and has no clbits. *)
Theorem simulate_simon_never_raises
        {float : Type} (np : Numeric float) (aer : Backend float)
        (circuit : circ) (qc : QuantumCircuit) (w : World) :
  heap w !! circuit = Some qc ->
  forallb (Qiskit.fits (mkCircuit (num_qubits qc) (num_clbits qc) [])) (data qc) = true ->
  ones_complex_raises np (2 ^ num_qubits qc) = None ->
  ones_raises np (2 ^ num_qubits qc) = None ->
  exists statevector probabilities counts printed,
    simulate_simon np aer circuit w
    = (Return (statevector, probabilities, counts),
       mkWorld (heap w
                ++ [mkCircuit (num_qubits qc) 0
                      (List.filter (fun i => negb (is_measure i)) (data qc))])
               (stdout w ++ printed))
    /\ length probabilities = length statevector.
Proof.
  intros Hc Hfit Hcomplex Hfloat.
  destruct (simulated_returns np aer qc Hcomplex Hfloat) as ([[sv ps] cs] & pr & Hsim).
  pose proof (simulated_lengths np aer qc sv ps cs pr Hsim) as Hlen.
  rewrite (simulate_simon_ok np aer circuit qc w Hc Hfit), Hsim. cbn [fst snd].
  exists sv, ps, cs, pr. split; [|exact Hlen].
  rewrite <- data_without_measurements. reflexivity.
Qed.

(** X10, for the circuit of the period ["11"] on 4 qubits and a simulator
    whose runs both raise. *)
Lemma simulate_simon_never_raises_witness :
  let w := mkWorld [simon_circuit "11" 2; oracle_circuit "11" 2] [] in
  let aer := mkBackend (fun _ => run_raises (SimulatorError "no device"))
                       (fun _ => inl (SimulatorError "no device"))
                       (fun q => inr q) in
  exists statevector probabilities counts printed,
    simulate_simon Exact.np aer 0%nat w
    = (Return (statevector, probabilities, counts),
       mkWorld (heap w
                ++ [mkCircuit 4 0 [h 0; h 1; cx 0 2; cx 1 3; cx 0 3; cx 1 2; h 0; h 1]%nat])
               (stdout w ++ printed))
    /\ length probabilities = length statevector.
Proof.
  cbv zeta.
  apply (simulate_simon_never_raises
           Exact.np
           (mkBackend (fun _ => run_raises (SimulatorError "no device"))
                      (fun _ => inl (SimulatorError "no device"))
                      (fun q => inr q))
           0%nat (simon_circuit "11" 2)
           (mkWorld [simon_circuit "11" 2; oracle_circuit "11" 2] [])).
  - reflexivity.
  - reflexivity.
  - reflexivity.
  - reflexivity.
Defined.

Lemma extract_fallback_counts hidden_period n :
  2 <= n ->
  extract_linear_equations fallback_counts hidden_period n
  = take (Z.to_nat (n - 1)) ["s_1 = 0"; "s_0 = 0"]%string
    ++ replicate (Z.to_nat (n - 3)) generic_equation.
Proof.
  intros Hn. rewrite extract_linear_equations_eq. cbv zeta.
  rewrite collect_equations_take by (simpl; lia).
  change (omap (fun x : string * Z => equation_of x.1) (sorted_by_count fallback_counts))
    with ["s_1 = 0"; "s_0 = 0"]%string.
  rewrite app_nil_l, length_take. cbn [length]. do 2 f_equal. lia.
Qed.

(** X11. When the state-vector run of the simulator raises and [np.ones]
    creates the two fallback arrays of [2^num_qubits] entries, a valid request
    on at least 4 qubits is still answered with [success = True]: the handler
    prints the error and answers with the uniform state vector, the uniform
    probabilities and the fixed counts [{"00": 512, "01": 256, "10": 256}],
    whose keys have two bits whatever the width of the register.  The equations
    are then ["s_1 = 0"], ["s_0 = 0"] (as far as [n - 1] allows) followed by
    generic equations. *)
Theorem simulator_crash_is_answered_with_fallback
        {float : Type} (np : Numeric float) (aer : Backend float)
        (hidden_period : string) (n : nat) (w : World) (e : Exn) :
  is_bitstring hidden_period = true ->
  (2 <= n)%nat ->
  run_statevector aer (without_measurements (simon_circuit hidden_period n)) = run_raises e ->
  ones_complex_raises np (2 ^ (2 * n)) = None ->
  ones_raises np (2 ^ (2 * n)) = None ->
  let num_states := (2 ^ (2 * n))%nat in
  exists resp w',
    run_simon_algorithm np aer (SimonRequest.mk hidden_period (2 * Z.of_nat n)) w
    = (Return resp, w')
    /\ SimonResponse.success resp = true
    /\ SimonResponse.measurement_counts resp = fallback_counts
    /\ SimonResponse.quantum_state resp
       = replicate num_states (mkComplexNumber (inv_sqrt np num_states) (fzero np))
    /\ SimonResponse.probabilities resp = replicate num_states (inv np num_states)
    /\ SimonResponse.linear_equations resp
       = take (n - 1) ["s_1 = 0"; "s_0 = 0"]%string ++ replicate (n - 3) generic_equation
    /\ stdout w'
       = stdout w ++ print_simulation_error e
           :: debug_output hidden_period fallback_counts
                           (SimonResponse.linear_equations resp) hidden_period.
Proof.
  intros Hbits Hn Hcrash Hcomplex Hfloat. cbv zeta.
  rewrite run_simon_algorithm_ok by (assumption || lia).
  unfold response, response_of, simulated.
  change (num_qubits (simon_circuit hidden_period n)) with (2 * n)%nat.
  rewrite Hcrash, Hcomplex, Hfloat.
  do 2 eexists. split; [reflexivity|].
  cbn [stdout SimonResponse.success SimonResponse.measurement_counts
       SimonResponse.quantum_state SimonResponse.probabilities
       SimonResponse.linear_equations].
  unfold uniform_amplitudes, uniform_distribution. rewrite map_replicate. cbn [re im].
  rewrite extract_fallback_counts by lia.
  replace (Z.to_nat (Z.of_nat n - 1)) with (n - 1)%nat by lia.
  replace (Z.to_nat (Z.of_nat n - 3)) with (n - 3)%nat by lia.
  repeat split.
Qed.

(** X11, at the request [("1011", 8)]. *)
Lemma simulator_crash_is_answered_with_fallback_witness :
  let aer := mkBackend (fun _ => run_raises (SimulatorError "no device"))
                       (fun _ => inr [("0000", 1024)]%string)
                       (fun q => inr q) in
  exists resp w',
    run_simon_algorithm Exact.np aer (SimonRequest.mk "1011" 8) empty_world
    = (Return resp, w')
    /\ SimonResponse.success resp = true
    /\ SimonResponse.measurement_counts resp = fallback_counts
    /\ SimonResponse.linear_equations resp
       = ["s_1 = 0"; "s_0 = 0"; "s_0 ⊕ s_1 = 0"]%string.
Proof.
  cbv zeta.
  destruct (simulator_crash_is_answered_with_fallback
              Exact.np
              (mkBackend (fun _ => run_raises (SimulatorError "no device"))
                         (fun _ => inr [("0000", 1024)]%string)
                         (fun q => inr q))
              "1011" 4 empty_world (SimulatorError "no device"))
    as (resp & w' & Hrun & Hsuccess & Hcounts & _ & _ & Hequations & _).
  - reflexivity.
  - lia.
  - reflexivity.
  - reflexivity.
  - reflexivity.
  - exists resp, w'. repeat split; assumption.
Defined.

(** ** The gate sequence of the response *)

Section GateFacts.

Context {float : Type}.
Variable aer : Backend float.

Lemma qubit_indices_ok qs :
  (forall q, qubit_index aer q = inr q) -> qubit_indices aer qs = inr qs.
Proof.
  intros Hidx. induction qs as [|q qs IH]; [reflexivity|].
  cbn [qubit_indices]. now rewrite Hidx, IH.
Qed.

Lemma qubit_indices_raise q qs :
  (forall q, exists e, qubit_index aer q = inl e) ->
  exists e, qubit_indices aer (q :: qs) = inl e.
Proof.
  intros Hidx. destruct (Hidx q) as [e He]. exists e.
  cbn [qubit_indices]. now rewrite He.
Qed.

End GateFacts.

Lemma gate_info_same_index {float : Type} (a b : Backend float) gates :
  (forall q, qubit_index a q = qubit_index b q) ->
  map (gate_info a) gates = map (gate_info b) gates.
Proof.
  intros Hidx. apply map_ext. intros i. unfold gate_info.
  replace (qubit_indices a (instruction_qubits i))
    with (qubit_indices b (instruction_qubits i)); [reflexivity|].
  induction (instruction_qubits i) as [|q qs IH]; cbn [qubit_indices]; [reflexivity|].
  now rewrite Hidx, IH.
Qed.

(** X12. When the [index] attribute of the qubits can be read,
    [extract_gate_sequence] returns one entry per instruction of the circuit,
    in the order of the circuit: the operation name, the qubit positions
    (control before target for a CNOT; for a measurement the qubit only, not
    the clbit) and no parameters.  The store and the output are untouched. *)
Theorem gate_sequence_lists_every_instruction
        {float : Type} (aer : Backend float)
        (circuit : circ) (qc : QuantumCircuit) (w : World) :
  heap w !! circuit = Some qc ->
  (forall q, qubit_index aer q = inr q) ->
  extract_gate_sequence aer circuit w
  = (Return (map (fun i => mkGateInfo (operation_name i) (instruction_qubits i) [])
                 (data qc)), w).
Proof.
  intros Hc Hidx. unfold extract_gate_sequence, bind. rewrite (get_ok _ _ _ Hc).
  unfold ret. do 2 f_equal. apply map_ext. intros i.
  unfold gate_info. now rewrite qubit_indices_ok.
Qed.

(** X12, for the circuit of the period ["10"] on 4 qubits. *)
Lemma gate_sequence_lists_every_instruction_witness :
  let w := mkWorld [simon_circuit "10" 2] [] in
  extract_gate_sequence (Exact.no_statevector fallback_counts) 0%nat w
  = (Return [mkGateInfo "h" [0] []; mkGateInfo "h" [1] []; mkGateInfo "cx" [0; 2] [];
             mkGateInfo "cx" [1; 3] []; mkGateInfo "cx" [0; 3] []; mkGateInfo "h" [0] [];
             mkGateInfo "h" [1] []; mkGateInfo "measure" [0] [];
             mkGateInfo "measure" [1] []]%nat, w).
Proof.
  cbv zeta.
  apply (gate_sequence_lists_every_instruction
           (Exact.no_statevector fallback_counts) 0%nat (simon_circuit "10" 2)
           (mkWorld [simon_circuit "10" 2] [])).
  - reflexivity.
  - intros q. reflexivity.
Defined.

(** X13. When reading the [index] attribute of a qubit raises,
    [extract_gate_sequence] does not fail: it still returns one entry per
    instruction, and every entry is the placeholder with name ["unknown"], no
    qubits and no parameters. *)
Theorem gate_sequence_without_index_is_unknown
        {float : Type} (aer : Backend float)
        (circuit : circ) (qc : QuantumCircuit) (w : World) :
  heap w !! circuit = Some qc ->
  (forall q, exists e, qubit_index aer q = inl e) ->
  extract_gate_sequence aer circuit w
  = (Return (replicate (length (data qc)) (mkGateInfo "unknown" [] [])), w).
Proof.
  intros Hc Hidx. unfold extract_gate_sequence, bind. rewrite (get_ok _ _ _ Hc).
  unfold ret. do 2 f_equal.
  induction (data qc) as [|i gates IH]; [reflexivity|].
  cbn [map length replicate]. rewrite IH. f_equal.
  unfold gate_info.
  destruct i as [q|c t|q c]; cbn [instruction_qubits];
    match goal with
    | |- context [qubit_indices aer (?q0 :: ?qs)] =>
        destruct (qubit_indices_raise aer q0 qs Hidx) as [e ->]
    end; reflexivity.
Qed.

(** X13, for the circuit of the period ["10"] on 4 qubits and qubits without
    an [index] attribute. *)
Lemma gate_sequence_without_index_is_unknown_witness :
  let w := mkWorld [simon_circuit "10" 2] [] in
  let aer := mkBackend (fun _ => statevector_is ([] : list (complex Q)))
                       (fun _ => inr fallback_counts)
                       (fun _ => inl (AttributeError "'Qubit' object has no attribute 'index'")) in
  extract_gate_sequence aer 0%nat w
  = (Return (replicate 9 (mkGateInfo "unknown" [] [])), w).
Proof.
  cbv zeta.
  apply (gate_sequence_without_index_is_unknown
           (mkBackend (fun _ => statevector_is ([] : list (complex Q)))
                      (fun _ => inr fallback_counts)
                      (fun _ => inl (AttributeError "'Qubit' object has no attribute 'index'")))
           0%nat (simon_circuit "10" 2) (mkWorld [simon_circuit "10" 2] [])).
  - reflexivity.
  - intros q. eexists. reflexivity.
Defined.

(** ** The handler *)

Lemma length_simon_gates hidden_period n :
  length (simon_gates hidden_period n)
  = (4 * n + ones (padded_period hidden_period n))%nat.
Proof.
  unfold simon_gates, range.
  rewrite !length_app, !length_map, !length_seq, length_oracle_gates. lia.
Qed.

(** X14. A request with a period over ['0']/['1'] and an even number of at
    least 2 qubits is answered whatever the simulator does, provided [np.ones]
    creates the two fallback arrays of [2^num_qubits] entries: the response has
    [success = True], repeats the period and the number of qubits of the
    request, holds the equations extracted from the counts it reports, one
    probability per amplitude and one gate entry per instruction of the
    circuit ([4n] plus one per ['1'] of the padded period).  The request adds
    three circuits to the store (the circuit, the oracle, the copy without
    measurements) and changes no object that existed before. *)
Theorem valid_request_is_always_answered
        {float : Type} (np : Numeric float) (aer : Backend float)
        (hidden_period : string) (n : nat) (w : World) :
  is_bitstring hidden_period = true ->
  (1 <= n)%nat ->
  ones_complex_raises np (2 ^ (2 * n)) = None ->
  ones_raises np (2 ^ (2 * n)) = None ->
  exists resp w',
    run_simon_algorithm np aer (SimonRequest.mk hidden_period (2 * Z.of_nat n)) w
    = (Return resp, w')
    /\ SimonResponse.success resp = true
    /\ SimonResponse.hidden_period resp = hidden_period
    /\ CircuitData.hidden_period (SimonResponse.circuit_data resp) = hidden_period
    /\ CircuitData.num_qubits (SimonResponse.circuit_data resp) = 2 * Z.of_nat n
    /\ SimonResponse.linear_equations resp
       = extract_linear_equations (SimonResponse.measurement_counts resp)
                                  hidden_period (Z.of_nat n)
    /\ length (SimonResponse.probabilities resp) = length (SimonResponse.quantum_state resp)
    /\ length (CircuitData.gates (SimonResponse.circuit_data resp))
       = (4 * n + ones (padded_period hidden_period n))%nat
    /\ heap w'
       = heap w ++ [simon_circuit hidden_period n; oracle_circuit hidden_period n;
                    without_measurements (simon_circuit hidden_period n)].
Proof.
  intros Hbits Hn Hcomplex Hfloat.
  destruct (simulated_returns np aer (simon_circuit hidden_period n) Hcomplex Hfloat)
    as ([[sv ps] cs] & pr & Hsim).
  pose proof (simulated_lengths np aer _ sv ps cs pr Hsim) as Hlen.
  rewrite run_simon_algorithm_ok by assumption.
  unfold response, response_of. rewrite Hsim.
  do 2 eexists. split; [reflexivity|].
  cbn [heap SimonResponse.success SimonResponse.hidden_period SimonResponse.circuit_data
       SimonResponse.linear_equations SimonResponse.measurement_counts
       SimonResponse.probabilities SimonResponse.quantum_state
       CircuitData.hidden_period CircuitData.num_qubits CircuitData.gates].
  repeat split.
  - now rewrite length_map.
  - rewrite length_map. apply length_simon_gates.
Qed.

(** X14, at the request [("101", 6)] with a simulator whose measurement run
    raises. *)
Lemma valid_request_is_always_answered_witness :
  let aer := mkBackend (fun _ => extraction_raises (SimulatorError "No statevector"))
                       (fun _ => inl (SimulatorError "no device"))
                       (fun q => inr q) in
  exists resp w',
    run_simon_algorithm Exact.np aer (SimonRequest.mk "101" 6) empty_world
    = (Return resp, w')
    /\ SimonResponse.success resp = true
    /\ SimonResponse.hidden_period resp = "101"%string.
Proof.
  cbv zeta.
  destruct (valid_request_is_always_answered
              Exact.np
              (mkBackend (fun _ => extraction_raises (SimulatorError "No statevector"))
                         (fun _ => inl (SimulatorError "no device"))
                         (fun q => inr q))
              "101" 3 empty_world)
    as (resp & w' & Hrun & Hsuccess & Hperiod & _).
  - reflexivity.
  - lia.
  - reflexivity.
  - reflexivity.
  - exists resp, w'. repeat split; assumption.
Defined.

Lemma run_simon_algorithm_try_negative
      {float : Type} (np : Numeric float) (aer : Backend float) hidden_period num_qubits w :
  is_bitstring hidden_period = true ->
  Z.odd num_qubits = false ->
  num_qubits < 0 ->
  run_simon_algorithm_try np aer (SimonRequest.mk hidden_period num_qubits) w
  = (Raise (CircuitError "Register size must be non-negative"), w).
Proof.
  intros Hbits Heven Hneg. unfold run_simon_algorithm_try.
  cbn [SimonRequest.hidden_period SimonRequest.num_qubits].
  unfold is_bitstring in Hbits. rewrite Hbits, Zmod_odd, Heven.
  cbn [negb Z.eqb]. unfold bind at 1. unfold ret at 1.
  unfold bind at 1. unfold ret at 1. unfold bind at 1.
  unfold create_simon_circuit. rewrite Zmod_odd, Heven. cbn [negb Z.eqb].
  unfold bind at 1. unfold Qiskit.new_circuit.
  replace (num_qubits <? 0) with true by (symmetry; now apply Z.ltb_lt).
  reflexivity.
Qed.

(** X15. The handler answers only valid requests: whenever
    [run_simon_algorithm] returns a response, the period of the request
    consists of ['0'] and ['1'] characters only (possibly none) and its number
    of qubits is even and not negative. *)
Theorem answered_requests_are_valid
        {float : Type} (np : Numeric float) (aer : Backend float)
        (request : SimonRequest.t) (w w' : World) (resp : SimonResponse.t float) :
  run_simon_algorithm np aer request w = (Return resp, w') ->
  is_bitstring (SimonRequest.hidden_period request) = true
  /\ Z.even (SimonRequest.num_qubits request) = true
  /\ 0 <= SimonRequest.num_qubits request.
Proof.
  destruct request as [hidden_period num_qubits].
  cbn [SimonRequest.hidden_period SimonRequest.num_qubits].
  unfold run_simon_algorithm, try_except. intros Hrun.
  destruct (is_bitstring hidden_period) eqn:Hbits.
  - destruct (Z.odd num_qubits) eqn:Hodd.
    + rewrite run_simon_algorithm_try_odd in Hrun by assumption. discriminate.
    + destruct (Z.ltb_spec num_qubits 0) as [Hneg|Hpos].
      * rewrite run_simon_algorithm_try_negative in Hrun by assumption. discriminate.
      * rewrite <- Z.negb_odd, Hodd. now repeat split.
  - rewrite run_simon_algorithm_try_bad_period in Hrun by assumption. discriminate.
Qed.

(** X15, at the answered request [("", 4)]. *)
Lemma answered_requests_are_valid_witness :
  exists resp w',
    run_simon_algorithm Exact.np (Exact.no_statevector fallback_counts)
                        (SimonRequest.mk "" 4) empty_world
    = (Return resp, w')
    /\ is_bitstring "" = true /\ Z.even 4 = true /\ 0 <= 4.
Proof.
  destruct (run_simon_algorithm Exact.np (Exact.no_statevector fallback_counts)
                                (SimonRequest.mk "" 4) empty_world)
    as [[resp|e] w'] eqn:Hrun.
  - exists resp, w'. split; [reflexivity|].
    exact (answered_requests_are_valid
             Exact.np (Exact.no_statevector fallback_counts) (SimonRequest.mk "" 4)
             empty_world w' resp Hrun).
  - vm_compute in Hrun. discriminate Hrun.
Defined.

(** X16. Whatever goes wrong inside the handler leaves it as an
    [HTTPException] with status 500 whose detail is the text of the exception
    raised inside: the status 400 of the validation never reaches the caller
    as such.  The period is validated before the parity of [num_qubits]: a
    period that is not binary gives the "Hidden period ..." error inside, also
    when [num_qubits] is odd; a binary period with an odd [num_qubits] gives
    the "Number of qubits ..." error. *)
Theorem handler_failures_leave_as_status_500
        {float : Type} (np : Numeric float) (aer : Backend float)
        (request : SimonRequest.t) (w w' : World) (e : Exn) :
  run_simon_algorithm np aer request w = (Raise e, w') ->
  exists inner,
    e = HTTPException 500 (detail_str inner)
    /\ run_simon_algorithm_try np aer request w = (Raise inner, w')
    /\ (is_bitstring (SimonRequest.hidden_period request) = false ->
        inner = HTTPException 400 (detail_text "Hidden period must contain only 0s and 1s")
        /\ w' = w)
    /\ (is_bitstring (SimonRequest.hidden_period request) = true ->
        Z.odd (SimonRequest.num_qubits request) = true ->
        inner = HTTPException 400
                  (detail_text "Number of qubits must be even for Simon's algorithm")
        /\ w' = w).
Proof.
  destruct request as [hidden_period num_qubits].
  cbn [SimonRequest.hidden_period SimonRequest.num_qubits].
  unfold run_simon_algorithm, try_except. intros Hrun.
  destruct (run_simon_algorithm_try np aer (SimonRequest.mk hidden_period num_qubits) w)
    as [[r|inner] w1] eqn:Htry; [discriminate|].
  unfold raise in Hrun. injection Hrun as <- <-.
  exists inner. split; [reflexivity|]. split; [reflexivity|]. split.
  - intros Hbad. rewrite run_simon_algorithm_try_bad_period in Htry by exact Hbad.
    injection Htry as <- <-. now split.
  - intros Hbits Hodd. rewrite run_simon_algorithm_try_odd in Htry by assumption.
    injection Htry as <- <-. now split.
Qed.

(** X16, at the request [("12", 3)]: the period error wins over the parity. *)
Lemma handler_failures_leave_as_status_500_witness :
  exists inner,
    HTTPException 500
      (detail_str (HTTPException 400 (detail_text "Hidden period must contain only 0s and 1s")))
    = HTTPException 500 (detail_str inner)
    /\ inner = HTTPException 400 (detail_text "Hidden period must contain only 0s and 1s").
Proof.
  destruct (handler_failures_leave_as_status_500
              Exact.np (Exact.no_statevector fallback_counts)
              (SimonRequest.mk "12" 3) empty_world empty_world
              (HTTPException 500
                 (detail_str (HTTPException 400
                    (detail_text "Hidden period must contain only 0s and 1s")))))
    as (inner & He & _ & Hperiod & _).
  - reflexivity.
  - exists inner. split; [exact He|]. apply Hperiod. reflexivity.
Defined.

(** X17. The handler consults the simulator at two circuits only: the copy
    without measurements for the state vector and the full circuit for the
    counts.  Two simulators that agree on the state-vector run of the copy, on
    the measurement run of the circuit and on the [index] attribute of the
    qubits give the same outcome of the handler, for every period and every
    even, non-negative number of qubits. *)
Theorem handler_sees_simulator_at_two_circuits
        {float : Type} (np : Numeric float) (aer aer' : Backend float)
        (hidden_period : string) (n : nat) (w : World) :
  run_statevector aer (without_measurements (simon_circuit hidden_period n))
  = run_statevector aer' (without_measurements (simon_circuit hidden_period n)) ->
  run_measurement aer (simon_circuit hidden_period n)
  = run_measurement aer' (simon_circuit hidden_period n) ->
  (forall q, qubit_index aer q = qubit_index aer' q) ->
  run_simon_algorithm np aer (SimonRequest.mk hidden_period (2 * Z.of_nat n)) w
  = run_simon_algorithm np aer' (SimonRequest.mk hidden_period (2 * Z.of_nat n)) w.
Proof.
  intros Hsv Hcounts Hidx.
  destruct (is_bitstring hidden_period) eqn:Hbits.
  - destruct n as [|n].
    + now rewrite !run_simon_algorithm_zero by exact Hbits.
    + rewrite !run_simon_algorithm_ok by (exact Hbits || lia).
      unfold response, response_of, simulated. rewrite Hsv, Hcounts.
      now rewrite (gate_info_same_index aer aer' _ Hidx).
  - unfold run_simon_algorithm, try_except.
    now rewrite !run_simon_algorithm_try_bad_period by exact Hbits.
Qed.

(** X17, for two simulators that differ on every circuit but the two of the
    request [("11", 4)]. *)
Lemma handler_sees_simulator_at_two_circuits_witness :
  let counts := [("00", 510); ("11", 514)]%string in
  let aer := Exact.no_statevector counts in
  let aer' :=
    mkBackend
      (fun qc => if Nat.eqb (length (data qc)) 8
                 then extraction_raises (SimulatorError "No statevector for experiment")
                 else run_raises (SimulatorError "other circuit"))
      (fun qc => if Nat.eqb (length (data qc)) 10
                 then inr counts
                 else inl (SimulatorError "other circuit"))
      (fun q => inr q) in
  run_simon_algorithm Exact.np aer (SimonRequest.mk "11" 4) empty_world
  = run_simon_algorithm Exact.np aer' (SimonRequest.mk "11" 4) empty_world.
Proof.
  cbv zeta.
  apply (handler_sees_simulator_at_two_circuits
           Exact.np (Exact.no_statevector [("00", 510); ("11", 514)]%string)
           (mkBackend
              (fun qc => if Nat.eqb (length (data qc)) 8
                         then extraction_raises (SimulatorError "No statevector for experiment")
                         else run_raises (SimulatorError "other circuit"))
              (fun qc => if Nat.eqb (length (data qc)) 10
                         then inr [("00", 510); ("11", 514)]%string
                         else inl (SimulatorError "other circuit"))
              (fun q => inr q))
           "11" 2 empty_world).
  - reflexivity.
  - reflexivity.
  - intros q. reflexivity.
Defined.

(** X18. On the normal path the values of the simulator are passed through:
    when the state-vector run gives a state vector and the measurement run
    gives counts, the response of a valid request holds the amplitudes of that
    state vector, in order, the squared magnitude of each as its probability,
    and those counts; nothing but the debug output is printed. *)
Theorem normal_run_passes_simulator_values_through
        {float : Type} (np : Numeric float) (aer : Backend float)
        (hidden_period : string) (n : nat) (w : World)
        (sv : list (complex float)) (counts : Counts) :
  is_bitstring hidden_period = true ->
  (1 <= n)%nat ->
  run_statevector aer (without_measurements (simon_circuit hidden_period n))
  = statevector_is sv ->
  run_measurement aer (simon_circuit hidden_period n) = inr counts ->
  exists resp w',
    run_simon_algorithm np aer (SimonRequest.mk hidden_period (2 * Z.of_nat n)) w
    = (Return resp, w')
    /\ SimonResponse.quantum_state resp
       = map (fun amp => mkComplexNumber (re amp) (im amp)) sv
    /\ SimonResponse.probabilities resp = map (abs_sq np) sv
    /\ SimonResponse.measurement_counts resp = counts
    /\ stdout w'
       = stdout w ++ debug_output hidden_period counts
                       (extract_linear_equations counts hidden_period (Z.of_nat n))
                       hidden_period.
Proof.
  intros Hbits Hn Hsv Hcounts.
  rewrite run_simon_algorithm_ok by assumption.
  unfold response, response_of, simulated. rewrite Hsv, Hcounts.
  do 2 eexists. split; [reflexivity|].
  cbn [stdout app]. repeat split.
Qed.

(** X18, at the request [("0", 2)] with the state vector and counts of its
    circuit [h 0; cx 0 1; h 0]. *)
Lemma normal_run_passes_simulator_values_through_witness :
  let half := (1 # 2)%Q in
  let sv := [mkComplex half 0%Q; mkComplex half 0%Q; mkComplex half 0%Q;
             mkComplex (- half)%Q 0%Q] in
  let counts := [("0", 520); ("1", 504)]%string in
  exists resp w',
    run_simon_algorithm Exact.np (Exact.with_statevector sv counts)
                        (SimonRequest.mk "0" 2) empty_world
    = (Return resp, w')
    /\ SimonResponse.probabilities resp = [(1 # 4)%Q; (1 # 4)%Q; (1 # 4)%Q; (1 # 4)%Q]
    /\ SimonResponse.measurement_counts resp = counts.
Proof.
  cbv zeta.
  destruct (normal_run_passes_simulator_values_through
              Exact.np
              (Exact.with_statevector
                 [mkComplex (1 # 2)%Q 0%Q; mkComplex (1 # 2)%Q 0%Q; mkComplex (1 # 2)%Q 0%Q;
                  mkComplex (- (1 # 2))%Q 0%Q]
                 [("0", 520); ("1", 504)]%string)
              "0" 1 empty_world
              [mkComplex (1 # 2)%Q 0%Q; mkComplex (1 # 2)%Q 0%Q; mkComplex (1 # 2)%Q 0%Q;
               mkComplex (- (1 # 2))%Q 0%Q]
              [("0", 520); ("1", 504)]%string)
    as (resp & w' & Hrun & _ & Hprob & Hcounts & _).
  - reflexivity.
  - lia.
  - reflexivity.
  - reflexivity.
  - exists resp, w'. repeat split; assumption.
Defined.

(** X19. When the measurement run raises, the state vector already obtained
    is thrown away: provided [np.ones] creates the two fallback arrays of
    [2^num_qubits] entries, the response of a valid request holds the uniform
    state vector and uniform probabilities of the fallback and the fixed
    counts [{"00": 512, "01": 256, "10": 256}], not the amplitudes the
    simulator returned, and still has [success = True]. *)
Theorem measurement_failure_discards_statevector
        {float : Type} (np : Numeric float) (aer : Backend float)
        (hidden_period : string) (n : nat) (w : World)
        (sv : list (complex float)) (e : Exn) :
  is_bitstring hidden_period = true ->
  (1 <= n)%nat ->
  run_statevector aer (without_measurements (simon_circuit hidden_period n))
  = statevector_is sv ->
  run_measurement aer (simon_circuit hidden_period n) = inl e ->
  ones_complex_raises np (2 ^ (2 * n)) = None ->
  ones_raises np (2 ^ (2 * n)) = None ->
  let num_states := (2 ^ (2 * n))%nat in
  exists resp w',
    run_simon_algorithm np aer (SimonRequest.mk hidden_period (2 * Z.of_nat n)) w
    = (Return resp, w')
    /\ SimonResponse.success resp = true
    /\ SimonResponse.quantum_state resp
       = replicate num_states (mkComplexNumber (inv_sqrt np num_states) (fzero np))
    /\ SimonResponse.probabilities resp = replicate num_states (inv np num_states)
    /\ SimonResponse.measurement_counts resp = fallback_counts
    /\ stdout w'
       = stdout w ++ print_simulation_error e
           :: debug_output hidden_period fallback_counts
                           (SimonResponse.linear_equations resp) hidden_period.
Proof.
  intros Hbits Hn Hsv Hfail Hcomplex Hfloat. cbv zeta.
  rewrite run_simon_algorithm_ok by assumption.
  unfold response, response_of, simulated.
  change (num_qubits (simon_circuit hidden_period n)) with (2 * n)%nat.
  rewrite Hsv, Hfail, Hcomplex, Hfloat.
  do 2 eexists. split; [reflexivity|].
  cbn [stdout SimonResponse.success SimonResponse.measurement_counts
       SimonResponse.quantum_state SimonResponse.probabilities
       SimonResponse.linear_equations].
  unfold uniform_amplitudes, uniform_distribution. rewrite map_replicate. cbn [re im].
  repeat split.
Qed.

(** X19, at the request [("0", 2)]: the state vector with a negative
    amplitude is replaced by the uniform one. *)
Lemma measurement_failure_discards_statevector_witness :
  let half := (1 # 2)%Q in
  let sv := [mkComplex half 0%Q; mkComplex half 0%Q; mkComplex half 0%Q;
             mkComplex (- half)%Q 0%Q] in
  let aer := mkBackend (fun _ => statevector_is sv)
                       (fun _ => inl (SimulatorError "no device"))
                       (fun q => inr q) in
  exists resp w',
    run_simon_algorithm Exact.np aer (SimonRequest.mk "0" 2) empty_world = (Return resp, w')
    /\ SimonResponse.quantum_state resp = replicate 4 (mkComplexNumber half 0%Q)
    /\ SimonResponse.measurement_counts resp = fallback_counts.
Proof.
  cbv zeta.
  destruct (measurement_failure_discards_statevector
              Exact.np
              (mkBackend
                 (fun _ => statevector_is
                             [mkComplex (1 # 2)%Q 0%Q; mkComplex (1 # 2)%Q 0%Q;
                              mkComplex (1 # 2)%Q 0%Q; mkComplex (- (1 # 2))%Q 0%Q])
                 (fun _ => inl (SimulatorError "no device"))
                 (fun q => inr q))
              "0" 1 empty_world
              [mkComplex (1 # 2)%Q 0%Q; mkComplex (1 # 2)%Q 0%Q;
               mkComplex (1 # 2)%Q 0%Q; mkComplex (- (1 # 2))%Q 0%Q]
              (SimulatorError "no device"))
    as (resp & w' & Hrun & _ & Hstate & _ & Hcounts & _).
  - reflexivity.
  - lia.
  - reflexivity.
  - reflexivity.
  - reflexivity.
  - reflexivity.
  - exists resp, w'. repeat split; assumption.
Defined.

(** ** The period bits in the oracle *)

Lemma enumerate_from_get i s j c :
  (j, c) ∈ PyStr.enumerate_from i s <-> (i <= j)%nat /\ String.get (j - i) s = Some c.
Proof.
  revert i; induction s as [|c' s IH]; intros i; cbn [PyStr.enumerate_from String.get].
  - split; [intros Hin; inversion Hin|].
    intros [_ Hget]. destruct (j - i)%nat; discriminate.
  - rewrite elem_of_cons, IH. split.
    + intros [Heq|[Hle Hget]].
      * injection Heq as -> ->. rewrite Nat.sub_diag. now split.
      * split; [lia|]. replace (j - i)%nat with (S (j - S i)) by lia. exact Hget.
    + intros [Hle Hget]. destruct (j - i)%nat as [|k] eqn:Hk.
      * left. injection Hget as ->. f_equal. lia.
      * right. split; [lia|]. now replace (j - S i)%nat with k by lia.
Qed.

(** X20. For [n >= 2] and every input qubit [i], the oracle holds the copy
    gate [cx(i, i + n)], and it holds the gate [cx(i, (i + 1) mod n + n)] if
    and only if character [i] of the padded period is ['1']. *)
Theorem period_bit_decides_cross_gate
        (hidden_period : string) (n i : nat) (w : World) :
  (2 <= n)%nat ->
  (i < n)%nat ->
  exists gates,
    create_simon_oracle hidden_period n w
    = (Return (length (heap w)), mkWorld (heap w ++ [mkCircuit (2 * n) 0 gates]) (stdout w))
    /\ In (cx i (i + n)) gates
    /\ (In (cx i ((i + 1) mod n + n)%nat) gates
        <-> String.get i (padded_period hidden_period n) = Some "1"%char).
Proof.
  intros Hn Hi. exists (oracle_gates hidden_period n).
  split; [apply create_simon_oracle_ok|].
  assert (Hcross : ((i + 1) mod n + n <> i + n)%nat).
  { destruct (Nat.eq_dec (i + 1)%nat n) as [Hlast|Hinner].
    - rewrite Hlast, Nat.Div0.mod_same. lia.
    - rewrite Nat.mod_small by lia. lia. }
  unfold oracle_gates. split.
  - apply in_or_app. left. unfold copy_gates, range.
    apply in_map_iff. exists i. split; [reflexivity|]. apply in_seq. lia.
  - rewrite in_app_iff. split.
    + intros [Hcopy|Hperiod].
      * unfold copy_gates, range in Hcopy.
        apply in_map_iff in Hcopy as (j & Heq & _). injection Heq as -> Ht. lia.
      * apply list_elem_of_In, list_elem_of_omap in Hperiod as ([j b] & Hjb & Hsel).
        cbn [fst snd] in Hsel.
        destruct (Ascii.eqb_spec b "1"%char) as [->|]; [|discriminate].
        injection Hsel as -> _.
        apply enumerate_from_get in Hjb as [_ Hget].
        now rewrite Nat.sub_0_r in Hget.
    + intros Hget. right. apply list_elem_of_In, list_elem_of_omap.
      exists (i, "1"%char). split.
      * apply enumerate_from_get. rewrite Nat.sub_0_r. split; [lia|exact Hget].
      * reflexivity.
Qed.

(** X20, at [n = 3], the period ["101"] and the input qubit 2. *)
Lemma period_bit_decides_cross_gate_witness :
  exists gates,
    create_simon_oracle "101" 3 empty_world
    = (Return 0%nat, mkWorld [mkCircuit 6 0 gates] [])
    /\ In (cx 2 5) gates
    /\ (In (cx 2 3) gates <-> String.get 2 "101" = Some "1"%char).
Proof.
  apply (period_bit_decides_cross_gate "101" 3 2 empty_world); lia.
Defined.
